(** * Unique-File-Selection: the parse / sort / compare pipeline

    A shallow embedding of [UniqueFileSelection.py] and the properties of
    its sorter, its per-entry HTML table extraction and its scan for
    consecutive duplicates.

    Conventions of the embedding:
    - a Python [str] is a Rocq [string] (characters with code points below
      256), a Python [bytes] value is a [list byte];
    - a Python [int] is a [Z];
    - a raised exception is the [Raise] branch of [result]; a [try/except]
      is a [match] on it;
    - the dictionary built by [parse_html] is a [gmap]: Python compares two
      dictionaries by their key sets and the values under each key, whatever
      the insertion order, which is the equality of [gmap];
    - the dictionary built by [read_html_from_archive] is only iterated, in
      insertion order, so it is an association list with unique keys. *)

From Stdlib Require Import ZArith Ascii String Strings.Byte List Bool Lia.
From Stdlib Require Import DecimalString Sorting.Sorted.
From stdpp Require Import base option list sorting gmap strings.

Set Warnings "-register-all,-clear-no-such-hyp".

Local Open Scope string_scope.
Local Open Scope list_scope.
Local Open Scope Z_scope.

(** ** Exceptions and results *)

Inductive exception : Type :=
| AttributeError
| ParserError (text : string)
| ValueError (text : string)
| KeyError (key : string)
| OverflowError
| OSError (path : string).

Inductive result (A : Type) : Type :=
| Ok (a : A)
| Raise (e : exception).

Arguments Ok {A} a.
Arguments Raise {A} e.

Definition bind {A B : Type} (m : result A) (k : A -> result B) : result B :=
  match m with
  | Ok a => k a
  | Raise e => Raise e
  end.

Notation "'let*' x ':=' m 'in' k" := (bind m (fun x => k))
  (at level 10, x name, m at level 100, k at level 200).

(** A [for] loop whose body may raise: the first exception leaves the loop. *)
Fixpoint for_each {A S : Type} (body : S -> A -> result S) (xs : list A) (s : S)
  : result S :=
  match xs with
  | [] => Ok s
  | x :: xs' => let* s' := body s x in for_each body xs' s'
  end.

(** ** Python strings *)

Module Py.

(** [ord(c)]: the code point of a character. *)
Definition ord (c : ascii) : Z := Z.of_N (N_of_ascii c).

(** [s[start:-back]] for a non-negative [start] and a negative stop. *)
Definition slice (start back : nat) (s : string) : string :=
  let stop := (String.length s - back)%nat in
  substring start (stop - start) s.

(** [str(n)] for an [int]. *)
Definition str (n : Z) : string := NilZero.string_of_int (Z.to_int n).

(** [str.isspace] on one character: the code points below 256 that
    Python counts as white space. *)
Definition isspace (c : ascii) : bool :=
  let n := ord c in
  (9 <=? n) && (n <=? 13) || (28 <=? n) && (n <=? 32)
  || (n =? 133) || (n =? 160).

Fixpoint lstrip (s : string) : string :=
  match s with
  | String c s' => if isspace c then lstrip s' else s
  | EmptyString => EmptyString
  end.

(** Removes trailing white space: a character is kept when it is not
    white space or when something is kept after it. *)
Fixpoint rstrip (s : string) : string :=
  match s with
  | String c s' =>
      match rstrip s' with
      | EmptyString => if isspace c then EmptyString else String c EmptyString
      | r => String c r
      end
  | EmptyString => EmptyString
  end.

(** [s.strip()]. *)
Definition strip (s : string) : string := rstrip (lstrip s).

(** [sep.join(parts)] with the empty separator. *)
Definition join (parts : list string) : string :=
  fold_right String.append EmptyString parts.

Definition isdigit (c : ascii) : bool :=
  let n := ord c in (48 <=? n) && (n <=? 57).

Definition isupper_AZ (c : ascii) : bool :=
  let n := ord c in (65 <=? n) && (n <=? 90).

(** [int(s)] for a string of decimal digits. *)
Fixpoint int_digits (acc : Z) (s : string) : option Z :=
  match s with
  | EmptyString => Some acc
  | String c s' =>
      if isdigit c
      then int_digits (10 * acc + (ord c - 48)) s'
      else None
  end.

End Py.

(** ** The [arrow] date objects

    [arrow] is a third-party library.  What the program uses of it is
    modelled here: [arrow.get(text, 'D_M_YYYY_H_m')] for the format the
    program passes, as the releases 1.x of the library read it (the
    search of the pattern in the text, with the boundaries the library
    puts around it, and the rule for hour 24), the
    comparison of two date objects that [sorted] uses, and the five
    attributes read back by the sorter.  Seconds, microseconds and the time
    zone are the same (0, 0, UTC) for every object built with that format,
    so a date object is its five fields. *)

Module Arrow.

Record t : Type := mk { year : Z; month : Z; day : Z; hour : Z; minute : Z }.

Definition is_leap (y : Z) : bool :=
  (y mod 4 =? 0) && (negb (y mod 100 =? 0) || (y mod 400 =? 0)).

Definition days_in_month (y m : Z) : Z :=
  if m =? 2 then (if is_leap y then 29 else 28)
  else if (m =? 4) || (m =? 6) || (m =? 9) || (m =? 11) then 30
  else 31.

(** The checks of the [datetime] constructor, which the library calls
    with hour 24 already turned into hour 0 ([build_datetime] below). *)
Definition valid (a : t) : bool :=
  (1 <=? year a) && (year a <=? 9999)
  && (1 <=? month a) && (month a <=? 12)
  && (1 <=? day a) && (day a <=? days_in_month (year a) (month a))
  && (0 <=? hour a) && (hour a <=? 23)
  && (0 <=? minute a) && (minute a <=? 59).

(** Tokens [D], [M], [H], [m] are [\d{1,2}] and [YYYY] is [\d{4}] in the
    regular expression the library builds from the format; the next
    definitions follow the matching of that expression, backtracking
    included.

    The ways the greedy [\d{0,hi}] can match at the head of [s], the
    longest first: the digits matched and what is left of [s]. *)
Fixpoint digit_run (hi : nat) (s : string) : list (string * string) :=
  match hi, s with
  | S hi', String c s' =>
      if Py.isdigit c
      then ((λ '(d, rest), (String c d, rest)) <$> digit_run hi' s')
             ++ [(EmptyString, s)]
      else [(EmptyString, s)]
  | _, _ => [(EmptyString, s)]
  end.

(** [\d{lo,hi}]. *)
Definition digits (lo hi : nat) (s : string) : list (string * string) :=
  List.filter (λ '(d, _), (lo <=? String.length d)%nat) (digit_run hi s).

(** One literal character. *)
Definition lit (c : ascii) (s : string) : list string :=
  match s with
  | String c' s' => if Ascii.eqb c' c then [s'] else []
  | EmptyString => []
  end.

(** The punctuation the library allows next to the pattern: comma, full
    stop, semicolon, colon, question and exclamation mark, the double and
    the single quote, the backquote, and the square, curly, round and angle
    brackets (by character code). *)
Definition is_punctuation (c : ascii) : bool :=
  let n := Py.ord c in
  (n =? 44) || (n =? 46) || (n =? 59) || (n =? 58) || (n =? 63) || (n =? 33)
  || (n =? 34) || (n =? 39) || (n =? 96) || (n =? 91) || (n =? 93)
  || (n =? 123) || (n =? 125) || (n =? 40) || (n =? 41) || (n =? 60)
  || (n =? 62).

(** The boundary after the pattern, a look-ahead: at most one punctuation
    mark, and then white space or the end of the text. *)
Definition ending_boundary (s : string) : bool :=
  match s with
  | EmptyString => true
  | String c s' =>
      Py.isspace c
      || (is_punctuation c
          && match s' with
             | EmptyString => true
             | String c' _ => Py.isspace c'
             end)
  end.

(** The boundary before the pattern, a look-behind on the two characters
    before the position ([None] where the text has none): they are not two
    characters other than white space, and the last of them is white space
    or a punctuation mark.  The word boundary the library also asks for
    holds at such a position when a digit follows. *)
Definition starting_boundary (before2 before1 : option ascii) : bool :=
  match before1 with
  | None => true
  | Some c1 =>
      (Py.isspace c1 || is_punctuation c1)
      && match before2 with
         | None => true
         | Some c2 => Py.isspace c2 || Py.isspace c1
         end
  end.

(** The pattern of the format [D_M_YYYY_H_m] matched at the head of [s]:
    the five groups of each way to match, in the order the matcher tries
    them. *)
Definition pattern (s : string)
  : list (string * string * string * string * string) :=
  '(D, s) ← digits 1 2 s; s ← lit "_" s;
  '(M, s) ← digits 1 2 s; s ← lit "_" s;
  '(YYYY, s) ← digits 4 4 s; s ← lit "_" s;
  '(H, s) ← digits 1 2 s; s ← lit "_" s;
  '(m, s) ← digits 1 2 s;
  if ending_boundary s then [(D, M, YYYY, H, m)] else [].

(** [re.search]: the first match at the leftmost position that has one. *)
Fixpoint search_from (before2 before1 : option ascii) (s : string)
  : option (string * string * string * string * string) :=
  match (if starting_boundary before2 before1 then head (pattern s) else None) with
  | Some groups => Some groups
  | None =>
      match s with
      | String c s' => search_from before1 (Some c) s'
      | EmptyString => None
      end
  end.

Definition search (text : string)
  : option (string * string * string * string * string) :=
  search_from None None text.

(** The day after a date, as [datetime + timedelta(days=1)] gives it; past
    the last day of year 9999 the addition raises [OverflowError]. *)
Definition next_day (a : t) : result t :=
  if day a <? days_in_month (year a) (month a)
  then Ok (mk (year a) (month a) (day a + 1) (hour a) (minute a))
  else if month a <? 12
  then Ok (mk (year a) (month a + 1) 1 (hour a) (minute a))
  else if year a <? 9999
  then Ok (mk (year a + 1) 1 1 (hour a) (minute a))
  else Raise OverflowError.

(** The date object for the numbers read: hour 24 is midnight at the end
    of the day, allowed with minute 0 only, and stands for hour 0 of the
    next day; the other numbers go through the checks of [datetime]. *)
Definition build_datetime (text : string) (y m d H M : Z) : result t :=
  if H =? 24
  then if M =? 0
       then let a := mk y m d 0 0 in
            if valid a then next_day a else Raise (ValueError text)
       else Raise (ParserError text)
  else let a := mk y m d H M in
       if valid a then Ok a else Raise (ValueError text).

(** [arrow.get(text, 'D_M_YYYY_H_m')]: the pattern is searched in the
    text; a text without a match raises the parser's error, numbers that
    are no date raise [ValueError]. *)
Definition get (text : string) : result t :=
  match search text with
  | None => Raise (ParserError text)
  | Some (D, M, YYYY, H, m) =>
      match Py.int_digits 0 D, Py.int_digits 0 M, Py.int_digits 0 YYYY,
            Py.int_digits 0 H, Py.int_digits 0 m with
      | Some d, Some mo, Some y, Some h, Some mi => build_datetime text y mo d h mi
      | _, _, _, _, _ => Raise (ValueError text)
      end
  end.

Definition lex (c1 c2 : comparison) : comparison :=
  match c1 with Eq => c2 | _ => c1 end.

(** Date objects compare field by field, the year first. *)
Definition cmp (a b : t) : comparison :=
  lex (year a ?= year b)
    (lex (month a ?= month b)
       (lex (day a ?= day b)
          (lex (hour a ?= hour b) (minute a ?= minute b)))).

Definition le (a b : t) : Prop := cmp a b <> Gt.

End Arrow.

#[global] Instance Arrow_le_dec (a b : Arrow.t) : Decision (Arrow.le a b).
Proof. unfold Arrow.le. destruct (Arrow.cmp a b); [left | left | right]; congruence. Defined.

(** ** The sorter *)

(** [sorted(date_objects)]: Python's sort is stable; two date objects that
    compare equal are the same object here, so any sort by [Arrow.le]
    gives Python's list. *)
Definition sorted (date_objects : list Arrow.t) : list Arrow.t :=
  merge_sort Arrow.le date_objects.

(** ['archive_{d}_{m}_{y}_{H}_{M}.zip'.format(...)] *)
Definition recovered_arch_name (date_obj : Arrow.t) : string :=
  "archive_" +:+ Py.str (Arrow.day date_obj) +:+ "_"
  +:+ Py.str (Arrow.month date_obj) +:+ "_"
  +:+ Py.str (Arrow.year date_obj) +:+ "_"
  +:+ Py.str (Arrow.hour date_obj) +:+ "_"
  +:+ Py.str (Arrow.minute date_obj) +:+ ".zip".

Definition _sort_filenames_by_date (arch_filenames : list string)
  : result (list string) :=
  let* date_objects :=
    for_each (fun date_objects arch_name =>
                let* date_obj := Arrow.get (Py.slice 8 4 arch_name) in
                Ok (date_objects ++ [date_obj]))
             arch_filenames [] in
  Ok (fold_left (fun recovered_arch_filenames date_obj =>
                   recovered_arch_filenames ++ [recovered_arch_name date_obj])
                (sorted date_objects) []).

(** ** The document tree of [bs4]

    [bs4] is a third-party library.  The tree it builds is modelled by its
    tags and its text nodes; comments and the other nodes that [.text]
    leaves out are not represented. *)

Module bs4.

Inductive PageElement : Type :=
| NavigableString (s : string)
| Tag (name : string) (contents : list PageElement).

(** [tag.descendants]: every node below the tag, in document order. *)
Fixpoint descendants (e : PageElement) : list PageElement :=
  match e with
  | NavigableString _ => []
  | Tag _ contents => flat_map (fun c => c :: descendants c) contents
  end.

Definition has_name (name : string) (e : PageElement) : bool :=
  match e with
  | Tag n _ => String.eqb n name
  | NavigableString _ => false
  end.

(** [tag.find_all(name)]: the descendant tags of that name, in document
    order. *)
Definition find_all (name : string) (e : PageElement) : list PageElement :=
  List.filter (has_name name) (descendants e).

(** [tag.find(name)]: the first of them, or [None]. *)
Definition find (name : string) (e : PageElement) : option PageElement :=
  head (find_all name e).

Definition string_of (e : PageElement) : option string :=
  match e with
  | NavigableString s => Some s
  | Tag _ _ => None
  end.

(** [tag.text]: the text nodes below the tag, concatenated. *)
Definition text (e : PageElement) : string :=
  match e with
  | NavigableString s => s
  | Tag _ _ => Py.join (omap string_of (descendants e))
  end.

End bs4.

(** ** The pattern of [parse_html] *)

Module re.

(** What [.] matches: everything but a line feed. *)
Definition dot (c : ascii) : bool := negb (Ascii.eqb c "010"%char).

(** The longest prefix matched by [.*]. *)
Fixpoint dot_star (s : string) : string :=
  match s with
  | String c s' => if dot c then String c (dot_star s') else EmptyString
  | EmptyString => EmptyString
  end.

(** [re.match(pattern, key)] for the pattern of [parse_html], three
    capital letters in a group and then any run of [.] in a second group:
    the two groups of the match, or [None]. *)
Definition match_ (key : string) : option (string * string) :=
  match key with
  | String a (String b (String c rest)) =>
      if Py.isupper_AZ a && Py.isupper_AZ b && Py.isupper_AZ c
      then Some (String a (String b (String c EmptyString)), dot_star rest)
      else None
  | _ => None
  end.

Definition group1 (m : string * string) : string := fst m.

End re.

(** An attribute or method looked up on [None] raises [AttributeError]. *)
Definition not_None {A : Type} (o : option A) : result A :=
  match o with
  | Some a => Ok a
  | None => Raise AttributeError
  end.

(** [d[k] = v] on a dictionary kept in insertion order: a key that is
    present keeps its place. *)
Fixpoint dict_set {V : Type} (k : string) (v : V) (d : list (string * V))
  : list (string * V) :=
  match d with
  | [] => [(k, v)]
  | (k', v') :: d' =>
      if String.eqb k' k then (k, v) :: d' else (k', v') :: dict_set k v d'
  end.

Abbreviation bytes := (list byte).
Abbreviation ParsedTable := (list (list string)).
Abbreviation SnapshotSet := (gmap string (list (list string))).

(** ** The table parser *)

Definition _parse_table (table : bs4.PageElement) : ParsedTable :=
  fold_left
    (fun table_contents tr =>
       let td_contents :=
         fold_left
           (fun td_contents td => td_contents ++ [Py.strip (bs4.text td)])
           (bs4.find_all "td" tr) [] in
       table_contents ++ [td_contents])
    (bs4.find_all "tr" table) [].

(** ** The duplicate scan of [main] *)

(** One turn of the loop of [main]: the state is [duplicate_arch_paths]
    and [previous_html_dict], which starts as [None]. *)
Definition scan_step (st : list string * option SnapshotSet)
  (item : string * SnapshotSet) : list string * option SnapshotSet :=
  let '(duplicate_arch_paths, previous_html_dict) := st in
  let '(path, html_dict) := item in
  (if decide (Some html_dict = previous_html_dict)
   then duplicate_arch_paths ++ [path]
   else duplicate_arch_paths,
   Some html_dict).

Definition duplicate_scan (pairs : list (string * SnapshotSet)) : list string :=
  fst (fold_left scan_step pairs ([], None)).

(** ** The pipeline

    The libraries and the file system the program runs against:
    [BeautifulSoup value] is the tree [BeautifulSoup(value, "html.parser")];
    [ZipFile path] is the container at [path], its entries in listing
    order, or the error raised for a missing or corrupt file;
    [os_listdir] and [os_path_join] are [os.listdir] and [os.path.join]. *)

Section Pipeline.

Variable BeautifulSoup : bytes -> bs4.PageElement.
Variable ZipFile : string -> result (list (string * bytes)).
Variable os_listdir : string -> result (list string).
Variable os_path_join : string -> string -> string.

(** [zf.open(f_name).read()]: of two entries of one name the container
    gives the later one. *)
Definition zf_read (zf : list (string * bytes)) (f_name : string)
  : result bytes :=
  match List.find (fun e => String.eqb (fst e) f_name) (rev zf) with
  | Some e => Ok (snd e)
  | None => Raise (KeyError f_name)
  end.

Definition read_html_from_archive (path : string)
  : result (list (string * bytes)) :=
  let* zf := ZipFile path in
  let f_names := map fst zf in
  for_each (fun html_dict f_name =>
              let* data := zf_read zf f_name in
              Ok (dict_set f_name data html_dict))
           f_names [].

(** The body of the [try] of [parse_html] for one entry. *)
Definition parse_html_try (parse_html_contents : SnapshotSet)
  (key : string) (value : bytes) : result SnapshotSet :=
  let* m := not_None (re.match_ key) in
  let company_name := re.group1 m in
  let table := bs4.find "table" (BeautifulSoup value) in
  let* table := not_None table in
  let table_contents := _parse_table table in
  Ok (<[company_name := table_contents]> parse_html_contents).

(** One turn of the loop of [parse_html]; the state is what was printed
    so far and [parse_html_contents].  Only [AttributeError] is caught. *)
Definition parse_html_step (st : list string * SnapshotSet)
  (item : string * bytes) : result (list string * SnapshotSet) :=
  let '(printed, parse_html_contents) := st in
  let '(key, value) := item in
  match parse_html_try parse_html_contents key value with
  | Ok parse_html_contents' => Ok (printed, parse_html_contents')
  | Raise AttributeError => Ok (printed ++ [key +:+ " error"], parse_html_contents)
  | Raise e => Raise e
  end.

Definition parse_html_loop (html_dict : list (string * bytes))
  : result (list string * SnapshotSet) :=
  for_each parse_html_step html_dict ([], ∅).

Definition parse_html (html_dict : list (string * bytes)) : result SnapshotSet :=
  let* st := parse_html_loop html_dict in Ok (snd st).

(** The lines [parse_html] prints. *)
Definition parse_html_printed (html_dict : list (string * bytes))
  : result (list string) :=
  let* st := parse_html_loop html_dict in Ok (fst st).

Definition generate_sorted_paths_to_archives (arch_dir : string)
  : result (list string) :=
  let* arch_filenames := os_listdir arch_dir in
  let* sorted_by_date_arch_filenames := _sort_filenames_by_date arch_filenames in
  Ok (fold_left (fun sorted_by_date_arch_paths f_name =>
                   sorted_by_date_arch_paths ++ [os_path_join arch_dir f_name])
                sorted_by_date_arch_filenames []).

Definition get_html_dict (path : string) : result SnapshotSet :=
  let* raw_html_dict := read_html_from_archive path in
  parse_html raw_html_dict.

(** [Pool(..).map(f, xs)]: the results in the order of [xs]; an exception
    raised in a worker is raised again by [map].  When several workers
    fail, the model raises the exception of the first failing item. *)
Definition Pool_map {A B : Type} (f : A -> result B) (xs : list A)
  : result (list B) :=
  for_each (fun ys x => let* y := f x in Ok (ys ++ [y])) xs [].

(** [main]: the value is [duplicate_arch_paths], the list written to the
    result file. *)
Definition main (ARCH_DIR : string) : result (list string) :=
  let* sorted_paths := generate_sorted_paths_to_archives ARCH_DIR in
  let* html_dicts := Pool_map get_html_dict sorted_paths in
  Ok (duplicate_scan (zip sorted_paths html_dicts)).

(** *** Reference definitions for the statements *)

(** What one entry contributes when both steps of the [try] succeed:
    the company code and the parsed table. *)
Definition parsed_entry (key : string) (value : bytes)
  : option (string * ParsedTable) :=
  match re.match_ key, bs4.find "table" (BeautifulSoup value) with
  | Some m, Some table => Some (re.group1 m, _parse_table table)
  | _, _ => None
  end.

(** The dictionary after one entry, and the lines printed for it. *)
Definition store_entry (contents : SnapshotSet) (item : string * bytes)
  : SnapshotSet :=
  match parsed_entry item.1 item.2 with
  | Some (company_name, table_contents) =>
      <[company_name := table_contents]> contents
  | None => contents
  end.

Definition diagnostic (item : string * bytes) : list string :=
  match parsed_entry item.1 item.2 with
  | Some _ => []
  | None => [item.1 +:+ " error"]
  end.

End Pipeline.

(** ** A sample environment

    Two documents with the trees [html.parser] builds for them; a
    directory [data] of three archives of which one is missing on disk, a
    directory [mixed] with a foreign file, a directory [void] of two
    archives without a usable entry; the path separator of POSIX.
    [Sample.BeautifulSoup] takes any other input for text without
    markup. *)

Module Sample.

Import bs4.

Definition html_10_20 : bytes :=
  list_byte_of_string
    "<table><tr><th>Open</th><th>Close</th></tr><tr><td> 10 </td><td>20</td></tr></table>".

Definition html_30_40 : bytes :=
  list_byte_of_string "<table><tr><td>30</td><td>40</td></tr></table>".

Definition soup_10_20 : PageElement :=
  Tag "[document]"
    [Tag "table"
       [Tag "tr" [Tag "th" [NavigableString "Open"];
                  Tag "th" [NavigableString "Close"]];
        Tag "tr" [Tag "td" [NavigableString " 10 "];
                  Tag "td" [NavigableString "20"]]]].

Definition soup_30_40 : PageElement :=
  Tag "[document]"
    [Tag "table"
       [Tag "tr" [Tag "td" [NavigableString "30"];
                  Tag "td" [NavigableString "40"]]]].

Definition BeautifulSoup (value : bytes) : PageElement :=
  let text := string_of_list_byte value in
  if String.eqb text (string_of_list_byte html_10_20) then soup_10_20
  else if String.eqb text (string_of_list_byte html_30_40) then soup_30_40
  else Tag "[document]" [NavigableString text].

Definition os_path_join (dir f_name : string) : string :=
  dir +:+ "/" +:+ f_name.

Definition no_table : bytes := list_byte_of_string "no table here".

Definition ZipFile (path : string) : result (list (string * bytes)) :=
  if String.eqb path "data/archive_31_12_2020_23_59.zip"
  then Ok [("ABC_2020.html", html_10_20); ("abc_2020.html", html_30_40)]
  else if String.eqb path "data/archive_1_1_2021_9_5.zip"
  then Ok [("ABC_2021.html", html_30_40); ("ABCD2021.html", html_10_20);
           ("XYZ.html", no_table)]
  else if String.eqb path "void/archive_1_1_2021_9_5.zip"
  then Ok [("abc_2021.html", html_10_20)]
  else if String.eqb path "void/archive_2_1_2021_10_30.zip"
  then Ok [("XYZ.html", no_table)]
  else Raise (OSError path).

Definition os_listdir (dir : string) : result (list string) :=
  if String.eqb dir "data"
  then Ok ["archive_2_1_2021_10_30.zip"; "archive_31_12_2020_23_59.zip";
           "archive_1_1_2021_9_5.zip"]
  else if String.eqb dir "mixed"
  then Ok ["archive_2_1_2021_10_30.zip"; "notes.txt";
           "archive_1_1_2021_9_5.zip"]
  else if String.eqb dir "void"
  then Ok ["archive_2_1_2021_10_30.zip"; "archive_1_1_2021_9_5.zip"]
  else Raise (OSError dir).

End Sample.

(** ** Reference definitions for the statements *)

(** What the loop adds to the report from a given [previous_html_dict]. *)
Fixpoint flagged_after (previous : option SnapshotSet)
  (pairs : list (string * SnapshotSet)) : list string :=
  match pairs with
  | [] => []
  | (path, html_dict) :: rest =>
      (if decide (Some html_dict = previous) then [path] else [])
      ++ flagged_after (Some html_dict) rest
  end.

(** The report as the specification words it: position [i] (from 0, so
    [i >= 1]) is flagged when its SnapshotSet equals that of [i - 1]. *)
Definition flagged_at (pairs : list (string * SnapshotSet)) (i : nat)
  : option string :=
  match pairs !! i, pairs !! (i - 1)%nat with
  | Some cur, Some prev => if decide (cur.2 = prev.2) then Some cur.1 else None
  | _, _ => None
  end.

Definition consecutive_duplicates (pairs : list (string * SnapshotSet))
  : list string :=
  omap (flagged_at pairs) (seq 1 (length pairs - 1)).

(** The date object of a file name, when [arrow.get] accepts it. *)
Definition timestamp_of (arch_name : string) : option Arrow.t :=
  match Arrow.get (Py.slice 8 4 arch_name) with
  | Ok date_obj => Some date_obj
  | Raise _ => None
  end.

(** A loop that appends [f x] for each [x], as a recursive function. *)
Fixpoint collect {A B : Type} (f : A → result B) (xs : list A) : result (list B) :=
  match xs with
  | [] => Ok []
  | x :: rest =>
      let* y := f x in
      let* ys := collect f rest in
      Ok (y :: ys)
  end.

(** The call of [arrow.get] in the sorter. *)
Definition date_of (arch_name : string) : result Arrow.t :=
  Arrow.get (Py.slice 8 4 arch_name).

(** Ascending order of the embedded timestamps, on file names. *)
Definition name_le (n1 n2 : string) : Prop :=
  match timestamp_of n1, timestamp_of n2 with
  | Some a, Some b => Arrow.le a b
  | _, _ => False
  end.

(** The names the program itself writes: the format string of the sorter
    filled with a date that exists and has a four-digit year, the numbers
    in decimal without padding. *)
Definition canonical (arch_name : string) : Prop :=
  ∃ a, Arrow.valid a = true ∧ 1000 <= Arrow.year a
       ∧ arch_name = recovered_arch_name a.

(** The errors of [arrow.get] for a text in which it finds no date. *)
Definition is_date_error (e : exception) : Prop :=
  match e with
  | ParserError _ | ValueError _ => True
  | _ => False
  end.

(** The exceptions of [arrow.get], the one of the last day of year 9999
    with hour 24 included. *)
Definition is_arrow_error (e : exception) : Prop :=
  match e with
  | ParserError _ | ValueError _ | OverflowError => True
  | _ => False
  end.

(** Strings of decimal digits, and the two checks run over the ranges of
    the fields to show that [arrow.get] reads back what [str] writes. *)
Fixpoint all_digits (s : string) : bool :=
  match s with
  | EmptyString => true
  | String c s' => Py.isdigit c && all_digits s'
  end.

Definition starts_with_digit (s : string) : bool :=
  match s with
  | String c _ => Py.isdigit c
  | EmptyString => false
  end.

(** The characters of a rebuilt time stamp: digits and underscores. *)
Definition is_word (c : ascii) : bool := Py.isdigit c || Ascii.eqb c "_".

Fixpoint word_chars (s : string) : bool :=
  match s with
  | EmptyString => true
  | String c s' => is_word c && word_chars s'
  end.

Definition short_field_ok (n : Z) : bool :=
  let s := Py.str n in
  all_digits s
  && (1 <=? String.length s)%nat && (String.length s <=? 2)%nat
  && match Py.int_digits 0 s with
     | Some k => k =? n
     | None => false
     end.

Definition year_field_ok (n : Z) : bool :=
  let s := Py.str n in
  all_digits s
  && (String.length s =? 4)%nat
  && match Py.int_digits 0 s with
     | Some k => k =? n
     | None => false
     end.

(** [f] holds of the [n] integers from [lo] on. *)
Fixpoint all_from (f : Z → bool) (lo : Z) (n : nat) : bool :=
  match n with
  | O => true
  | S k => f lo && all_from f (lo + 1) k
  end.

(** The text between the prefix and the suffix of a rebuilt name. *)
Definition stamp (a : Arrow.t) : string :=
  Py.str (Arrow.day a) +:+ "_" +:+ Py.str (Arrow.month a) +:+ "_"
  +:+ Py.str (Arrow.year a) +:+ "_" +:+ Py.str (Arrow.hour a) +:+ "_"
  +:+ Py.str (Arrow.minute a).

(** One row of the parsed table: the trimmed text of the [td] tags below
    a [tr] tag. *)
Definition row_of (tr : bs4.PageElement) : list string :=
  (λ td, Py.strip (bs4.text td)) <$> bs4.find_all "td" tr.

(** A header cell that holds text only. *)
Definition header_cell (e : bs4.PageElement) : Prop :=
  ∃ texts, e = bs4.Tag "th" (bs4.NavigableString <$> texts).

Fixpoint all_space (s : string) : bool :=
  match s with
  | EmptyString => true
  | String c s' => Py.isspace c && all_space s'
  end.

Definition starts_with_space (s : string) : bool :=
  match s with
  | String c _ => Py.isspace c
  | EmptyString => false
  end.

Fixpoint ends_with_space (s : string) : bool :=
  match s with
  | EmptyString => false
  | String c EmptyString => Py.isspace c
  | String _ s' => ends_with_space s'
  end.

(** ** A second sample environment

    Three more documents with the trees [html.parser] builds for them, and
    a directory [twice] that lists one archive under two spellings of its
    name. *)

Module Sample2.

Import bs4.

Definition html_empty_table : bytes := list_byte_of_string "<table></table>".

Definition html_two_tables : bytes :=
  list_byte_of_string
    "<p>a</p><table><tr><td>1</td></tr></table><table><tr><td>2</td></tr></table>".

Definition html_table_then_text : bytes :=
  list_byte_of_string "<p>a</p><table><tr><td>1</td></tr></table><p>z</p>".

Definition BeautifulSoup (value : bytes) : PageElement :=
  let text := string_of_list_byte value in
  if String.eqb text (string_of_list_byte html_empty_table)
  then Tag "[document]" [Tag "table" []]
  else if String.eqb text (string_of_list_byte html_two_tables)
  then Tag "[document]"
         ([Tag "p" [NavigableString "a"]]
            ++ Tag "table" [Tag "tr" [Tag "td" [NavigableString "1"]]]
            :: [Tag "table" [Tag "tr" [Tag "td" [NavigableString "2"]]]])
  else if String.eqb text (string_of_list_byte html_table_then_text)
  then Tag "[document]"
         ([Tag "p" [NavigableString "a"]]
            ++ Tag "table" [Tag "tr" [Tag "td" [NavigableString "1"]]]
            :: [Tag "p" [NavigableString "z"]])
  else Sample.BeautifulSoup value.

Definition ZipFile (path : string) : result (list (string * bytes)) :=
  if String.eqb path "twice/archive_1_1_2021_9_5.zip"
  then Ok [("ABC_2021.html", Sample.html_30_40)]
  else Sample.ZipFile path.

Definition os_listdir (dir : string) : result (list string) :=
  if String.eqb dir "twice"
  then Ok ["archive_01_1_2021_9_5.zip"; "archive_1_1_2021_9_5.zip"]
  else Sample.os_listdir dir.

(** Four archives, the second a copy of the first. *)
Definition scan_pairs : list (string * SnapshotSet) :=
  [("a", ∅); ("b", ∅); ("c", {[ "ABC" := [] ]}); ("d", ∅)].

End Sample2.

(** ** Reference definitions, continued *)

(** The check run over the years before 1000: [str] writes fewer than four
    digits for them. *)
Definition short_year_ok (n : Z) : bool :=
  let s := Py.str n in
  all_digits s && (String.length s <? 4)%nat.

(** The archives that the scan does not report, from a given
    [previous_html_dict]. *)
Fixpoint kept_after (previous : option SnapshotSet)
  (pairs : list (string * SnapshotSet)) : list (string * SnapshotSet) :=
  match pairs with
  | [] => []
  | (path, html_dict) :: rest =>
      (if decide (Some html_dict = previous) then [] else [(path, html_dict)])
      ++ kept_after (Some html_dict) rest
  end.

(** ** The specification's readings

    Three notions that the specification uses and the program does not
    compute, written after the specification's words, to compare the
    program with them. *)

(** The naming convention [archive_{day}_{month}_{year}_{hour}_{minute}.zip]:
    the prefix, five groups of digits with underscores between them, the
    suffix. *)
Fixpoint fields_of (s : string) : list string :=
  match s with
  | EmptyString => [EmptyString]
  | String c s' =>
      if Ascii.eqb c "_" then EmptyString :: fields_of s'
      else match fields_of s' with
           | f :: fs => String c f :: fs
           | [] => [String c EmptyString]
           end
  end.

Definition digit_group (s : string) : bool :=
  negb (String.eqb s EmptyString) && all_digits s.

Definition follows_naming_convention (name : string) : bool :=
  String.prefix "archive_" name
  && String.eqb (substring (String.length name - 4) 4 name) ".zip"
  && match fields_of (Py.slice 8 4 name) with
     | [d; m; y; H; M] =>
         digit_group d && digit_group m && digit_group y
         && digit_group H && digit_group M
     | _ => false
     end.

(** The rows of a table element and the data cells of a row as HTML has
    them: the rows are the [tr] children of the table and of its [thead],
    [tbody] and [tfoot] children; the data cells of a row are its [td]
    children. *)
Definition contents_of (e : bs4.PageElement) : list bs4.PageElement :=
  match e with
  | bs4.Tag _ contents => contents
  | bs4.NavigableString _ => []
  end.

Definition is_section (e : bs4.PageElement) : bool :=
  bs4.has_name "thead" e || bs4.has_name "tbody" e || bs4.has_name "tfoot" e.

Definition rows_of_table (table : bs4.PageElement) : list bs4.PageElement :=
  flat_map (λ c, if bs4.has_name "tr" c then [c]
                 else if is_section c
                 then List.filter (bs4.has_name "tr") (contents_of c)
                 else [])
           (contents_of table).

Definition cells_of_row (tr : bs4.PageElement) : list bs4.PageElement :=
  List.filter (bs4.has_name "td") (contents_of tr).

(** The table as the specification words it: the rows of the table, each
    the trimmed text of the data cells of that row. *)
Definition table_as_claimed (table : bs4.PageElement) : ParsedTable :=
  (λ tr, (λ td, Py.strip (bs4.text td)) <$> cells_of_row tr)
    <$> rows_of_table table.

(** Tables without nesting.  A node with no [tr] and no [td] tag below
    it: *)
Definition no_rows_or_cells (e : bs4.PageElement) : bool :=
  forallb (λ x, negb (bs4.has_name "tr" x) && negb (bs4.has_name "td" x))
          (bs4.descendants e).

(** what stands in a row: [td] and [th] cells and text, none with a row or
    a cell below it; *)
Definition plain_cell (c : bs4.PageElement) : bool :=
  negb (bs4.has_name "tr" c) && no_rows_or_cells c.

Definition plain_row (r : bs4.PageElement) : bool :=
  bs4.has_name "tr" r && forallb plain_cell (contents_of r).

(** what stands between rows: text, or a tag such as [caption] or
    [colgroup], with no row and no cell in it; *)
Definition filler (e : bs4.PageElement) : bool :=
  negb (bs4.has_name "tr" e) && negb (bs4.has_name "td" e)
  && no_rows_or_cells e.

Definition plain_section (e : bs4.PageElement) : bool :=
  is_section e && forallb (λ r, plain_row r || filler r) (contents_of e).

(** and the table: rows, sections of rows, and what stands between. *)
Definition plain_table (table : bs4.PageElement) : bool :=
  forallb (λ c, plain_row c || filler c || plain_section c) (contents_of table).

(** ** A third sample environment

    A table inside a cell of another; two pages with the table below
    [html] and [body], at different depths; a container [repeat] that
    lists a member name twice; a directory [stray] with one archive and two
    files named otherwise. *)

Module Sample3.

Import bs4.

Definition nested_table : PageElement :=
  Tag "table"
    [Tag "tr"
       [Tag "td"
          [Tag "table" [Tag "tr" [Tag "td" [NavigableString "x"]]]]]].

Definition html_page_two_tables : bytes :=
  list_byte_of_string
    "<html><body><p>a</p><table><tr><td>1</td></tr></table><table><tr><td>2</td></tr></table></body></html>".

Definition html_page_table_in_div : bytes :=
  list_byte_of_string
    "<html><body><div><table><tr><td>1</td></tr></table></div>z</body></html>".

Definition BeautifulSoup (value : bytes) : PageElement :=
  let text := string_of_list_byte value in
  if String.eqb text (string_of_list_byte html_page_two_tables)
  then Tag "[document]"
         [Tag "html"
            [Tag "body"
               [Tag "p" [NavigableString "a"];
                Tag "table" [Tag "tr" [Tag "td" [NavigableString "1"]]];
                Tag "table" [Tag "tr" [Tag "td" [NavigableString "2"]]]]]]
  else if String.eqb text (string_of_list_byte html_page_table_in_div)
  then Tag "[document]"
         [Tag "html"
            [Tag "body"
               [Tag "div"
                  [Tag "table" [Tag "tr" [Tag "td" [NavigableString "1"]]]];
                NavigableString "z"]]]
  else Sample2.BeautifulSoup value.

Definition repeated_names : list (string * bytes) :=
  [("ABC_1.html", Sample.html_10_20); ("ABCD.html", Sample.html_30_40);
   ("ABC_1.html", Sample2.html_table_then_text)].

Definition ZipFile (path : string) : result (list (string * bytes)) :=
  if String.eqb path "repeat/archive_1_1_2021_9_5.zip"
  then Ok repeated_names
  else if String.eqb path "stray/archive_2_1_2021_10_30.zip"
  then Ok [("ABC_2021.html", Sample.html_30_40)]
  else Sample2.ZipFile path.

Definition os_listdir (dir : string) : result (list string) :=
  if String.eqb dir "stray"
  then Ok ["archive_2_1_2021_10_30.zip"; "backup__2_1_2021_10_30.bak";
           "archive_2_1_2021_10_30 (1).zip"]
  else Sample2.os_listdir dir.

End Sample3.

(** * Properties *)

(** ** The duplicate scan *)

Lemma fold_scan_step pairs acc previous :
  fst (fold_left scan_step pairs (acc, previous))
  = acc ++ flagged_after previous pairs.
Proof.
  revert acc previous.
  induction pairs as [|[path html_dict] rest IH]; intros acc previous; simpl.
  - by rewrite app_nil_r.
  - rewrite IH. case_decide; simpl; by rewrite <- ?app_assoc.
Qed.

Lemma duplicate_scan_flagged_after pairs :
  duplicate_scan pairs = flagged_after None pairs.
Proof. unfold duplicate_scan. by rewrite fold_scan_step. Qed.

Lemma flagged_at_cons p pairs i :
  flagged_at (p :: pairs) (S (S i)) = flagged_at pairs (S i).
Proof. unfold flagged_at. simpl. by rewrite Nat.sub_0_r. Qed.

Lemma flagged_after_positions path0 d0 rest :
  flagged_after (Some d0) rest
  = omap (flagged_at ((path0, d0) :: rest)) (seq 1 (length rest)).
Proof.
  revert path0 d0. induction rest as [|[path d] rest IH]; intros path0 d0; [done|].
  cbn [flagged_after length seq]. rewrite (IH path d).
  change (omap ?f (?x :: ?l)) with (match f x with Some y => y :: omap f l | None => omap f l end).
  assert (omap (flagged_at ((path0, d0) :: (path, d) :: rest)) (seq 2 (length rest))
          = omap (flagged_at ((path, d) :: rest)) (seq 1 (length rest))) as ->.
  { apply list_omap_ext. rewrite <- (fmap_S_seq 1).
    apply Forall2_fmap_l, Forall_Forall2_diag, Forall_forall.
    intros i Hi. apply elem_of_seq in Hi.
    destruct i as [|i]; [lia|]. apply flagged_at_cons. }
  unfold flagged_at at 2. simpl.
  do 2 case_decide; simplify_eq; done.
Qed.

Lemma duplicate_scan_positions pairs :
  duplicate_scan pairs = consecutive_duplicates pairs.
Proof.
  rewrite duplicate_scan_flagged_after. unfold consecutive_duplicates.
  destruct pairs as [|[path d] rest]; [done|].
  cbn [flagged_after length].
  replace (S (length rest) - 1)%nat with (length rest) by lia.
  case_decide; [done|]. apply flagged_after_positions.
Qed.

Lemma flagged_after_same s paths :
  flagged_after (Some s) ((λ path, (path, s)) <$> paths) = paths.
Proof.
  induction paths as [|path paths IH]; [done|].
  cbn [fmap list_fmap flagged_after]. rewrite decide_True by done.
  simpl. f_equal. apply IH.
Qed.

Lemma flagged_after_sublist previous pairs :
  flagged_after previous pairs `sublist_of` pairs.*1.
Proof.
  revert previous. induction pairs as [|[path d] rest IH]; intros previous; [done|].
  cbn [flagged_after fmap list_fmap fst]. case_decide; simpl.
  - by apply sublist_skip.
  - by apply sublist_cons.
Qed.

(** C1: the report of the scan is exactly the list of the paths at the
    positions whose SnapshotSet equals that of the position before, in the
    order of the sequence.  So a run of identical snapshots flags all of
    its entries but the first ([B; C] for three), the first archive of a
    sequence is never flagged, and the report is empty when no two
    consecutive SnapshotSets are equal. *)
Theorem duplicate_scan_consecutive :
  (∀ pairs, duplicate_scan pairs = consecutive_duplicates pairs)
  ∧ (∀ (s : SnapshotSet) paths,
        duplicate_scan ((λ path, (path, s)) <$> paths) = tail paths)
  ∧ (∀ (s : SnapshotSet) A B C,
        duplicate_scan [(A, s); (B, s); (C, s)] = [B; C])
  ∧ (∀ first rest, duplicate_scan (first :: rest) `sublist_of` rest.*1)
  ∧ (∀ first, duplicate_scan [first] = [])
  ∧ (∀ pairs,
        (∀ i prev cur, pairs !! i = Some prev → pairs !! S i = Some cur →
                       cur.2 ≠ prev.2) →
        duplicate_scan pairs = []).
Proof.
  assert (Hrun : ∀ (s : SnapshotSet) paths,
             duplicate_scan ((λ path, (path, s)) <$> paths) = tail paths).
  { intros s [|path paths]; [done|].
    rewrite duplicate_scan_flagged_after.
    cbn [fmap list_fmap flagged_after tail]. rewrite decide_False by done.
    apply flagged_after_same. }
  split_and!.
  - apply duplicate_scan_positions.
  - apply Hrun.
  - intros s A B C. apply (Hrun s [A; B; C]).
  - intros [path d] rest. rewrite duplicate_scan_flagged_after.
    cbn [flagged_after]. rewrite decide_False by done.
    apply flagged_after_sublist.
  - intros [path d]. rewrite duplicate_scan_flagged_after.
    cbn [flagged_after]. by rewrite decide_False.
  - intros pairs Hne. rewrite duplicate_scan_positions.
    unfold consecutive_duplicates.
    assert (Hnone : Forall (λ i, flagged_at pairs i = None)
                      (seq 1 (length pairs - 1))).
    { apply Forall_forall. intros i Hi. apply elem_of_seq in Hi.
      destruct i as [|i]; [lia|]. unfold flagged_at. simpl.
      rewrite Nat.sub_0_r.
      destruct (pairs !! S i) as [cur|] eqn:Hcur; [|done].
      destruct (pairs !! i) as [prev|] eqn:Hprev; [|done].
      rewrite decide_False; [done|]. by eapply Hne. }
    induction Hnone as [|i l Hi _ IH]; [done|]. simpl. by rewrite Hi.
Qed.

(** ** The order of the date objects *)

Lemma Arrow_cmp_eq a b : Arrow.cmp a b = Eq → a = b.
Proof.
  destruct a as [y1 m1 d1 H1 M1], b as [y2 m2 d2 H2 M2].
  unfold Arrow.cmp, Arrow.lex; simpl.
  destruct (Z.compare_spec y1 y2); try discriminate.
  destruct (Z.compare_spec m1 m2); try discriminate.
  destruct (Z.compare_spec d1 d2); try discriminate.
  destruct (Z.compare_spec H1 H2); try discriminate.
  destruct (Z.compare_spec M1 M2); try discriminate.
  intros _. congruence.
Qed.

Lemma Arrow_cmp_antisym a b : Arrow.cmp b a = CompOpp (Arrow.cmp a b).
Proof.
  destruct a as [y1 m1 d1 H1 M1], b as [y2 m2 d2 H2 M2].
  unfold Arrow.cmp, Arrow.lex; simpl.
  rewrite (Z.compare_antisym y1 y2), (Z.compare_antisym m1 m2),
    (Z.compare_antisym d1 d2), (Z.compare_antisym H1 H2),
    (Z.compare_antisym M1 M2).
  destruct (y1 ?= y2), (m1 ?= m2), (d1 ?= d2), (H1 ?= H2), (M1 ?= M2); reflexivity.
Qed.

#[global] Instance Arrow_le_total : Total Arrow.le.
Proof.
  intros a b. unfold Arrow.le. rewrite (Arrow_cmp_antisym a b).
  destruct (Arrow.cmp a b); simpl; [left | left | right]; congruence.
Qed.

#[global] Instance Arrow_le_antisymm : AntiSymm (=) Arrow.le.
Proof.
  intros a b Hab Hba. unfold Arrow.le in *. rewrite (Arrow_cmp_antisym a b) in Hba.
  destruct (Arrow.cmp a b) eqn:E; simpl in *; try congruence.
  by apply Arrow_cmp_eq.
Qed.

#[global] Instance Arrow_le_trans : Transitive Arrow.le.
Proof.
  intros [y1 m1 d1 H1 M1] [y2 m2 d2 H2 M2] [y3 m3 d3 H3 M3].
  unfold Arrow.le, Arrow.cmp, Arrow.lex; simpl.
  destruct (Z.compare_spec y1 y2), (Z.compare_spec y2 y3), (Z.compare_spec y1 y3);
    try lia; try congruence;
  destruct (Z.compare_spec m1 m2), (Z.compare_spec m2 m3), (Z.compare_spec m1 m3);
    try lia; try congruence;
  destruct (Z.compare_spec d1 d2), (Z.compare_spec d2 d3), (Z.compare_spec d1 d3);
    try lia; try congruence;
  destruct (Z.compare_spec H1 H2), (Z.compare_spec H2 H3), (Z.compare_spec H1 H3);
    try lia; try congruence;
  destruct (Z.compare_spec M1 M2), (Z.compare_spec M2 M3), (Z.compare_spec M1 M3);
    try lia; congruence.
Qed.

Lemma sorted_permutation ds1 ds2 : ds1 ≡ₚ ds2 → sorted ds1 = sorted ds2.
Proof.
  intros Hp. unfold sorted.
  apply (StronglySorted_unique Arrow.le); try apply StronglySorted_merge_sort; try apply _.
  by rewrite !merge_sort_Permutation.
Qed.

(** ** The loops of the sorter *)

Lemma fold_left_snoc {A B} (f : A → B) (l : list A) (acc : list B) :
  fold_left (λ acc x, acc ++ [f x]) l acc = acc ++ (f <$> l).
Proof.
  revert acc. induction l as [|x l IH]; intros acc; simpl.
  - by rewrite app_nil_r.
  - rewrite IH. by rewrite <- app_assoc.
Qed.

Lemma for_each_collect {A B} (f : A → result B) xs acc :
  for_each (λ ys x, let* y := f x in Ok (ys ++ [y])) xs acc
  = let* ys := collect f xs in Ok (acc ++ ys).
Proof.
  revert acc. induction xs as [|x xs IH]; intros acc; simpl.
  - by rewrite app_nil_r.
  - destruct (f x) as [y|e]; simpl; [|done].
    rewrite IH. destruct (collect f xs); simpl; [|done].
    by rewrite <- app_assoc.
Qed.

Lemma collect_Ok_inv {A B} (f : A → result B) xs ys :
  collect f xs = Ok ys → Forall2 (λ x y, f x = Ok y) xs ys.
Proof.
  revert ys. induction xs as [|x xs IH]; intros ys; simpl.
  - intros [= <-]. constructor.
  - destruct (f x) as [y|] eqn:Hx; simpl; [|done].
    destruct (collect f xs) as [ys'|]; simpl; [|done].
    intros [= <-]. constructor; auto.
Qed.

Lemma collect_Ok {A B} (f : A → result B) xs :
  Forall (λ x, ∃ y, f x = Ok y) xs → ∃ ys, collect f xs = Ok ys.
Proof.
  induction 1 as [|x xs [y Hy] _ [ys Hys]]; [by exists []|].
  exists (y :: ys). simpl. by rewrite Hy, Hys.
Qed.

Lemma collect_Raise {A B} (f : A → result B) pre bad post e :
  f bad = Raise e →
  ∃ e', collect f (pre ++ bad :: post) = Raise e'
        ∧ (Forall (λ x, ∃ y, f x = Ok y) pre → e' = e)
        ∧ ∃ x, x ∈ pre ++ [bad] ∧ f x = Raise e'.
Proof.
  intros Hbad. induction pre as [|x pre (e' & IH & Hfirst & x' & Hin & Hx')]; simpl.
  - exists e. rewrite Hbad. simpl. split_and!; [done..|].
    exists bad. split; [by left|done].
  - destruct (f x) as [y|e0] eqn:E; simpl.
    + exists e'. rewrite IH. simpl. split_and!; [done| |].
      * intros HF. apply Hfirst. by inv HF.
      * exists x'. split; [by right|done].
    + exists e0. split_and!; [done| |].
      * intros HF. inv HF. destruct H1 as [y Hy]. congruence.
      * exists x. split; [by left|done].
Qed.

Lemma sort_filenames_unfold names :
  _sort_filenames_by_date names
  = let* ds := collect date_of names in Ok (recovered_arch_name <$> sorted ds).
Proof.
  unfold _sort_filenames_by_date.
  rewrite (for_each_collect (λ arch_name, Arrow.get (Py.slice 8 4 arch_name))).
  fold date_of. change (λ arch_name, date_of arch_name) with date_of.
  destruct (collect date_of names); simpl; [|done].
  by rewrite fold_left_snoc.
Qed.

Lemma Arrow_get_raises text e : Arrow.get text = Raise e → is_arrow_error e.
Proof.
  unfold Arrow.get, Arrow.build_datetime, Arrow.next_day. intros H.
  repeat case_match; simplify_eq; done.
Qed.

(** ** Reading back a rebuilt name *)

Lemma append_nil (b : string) : "" +:+ b = b.
Proof. reflexivity. Qed.

Lemma append_cons x (a b : string) : String x a +:+ b = String x (a +:+ b).
Proof. reflexivity. Qed.

Lemma append_assoc (a b c : string) : (a +:+ b) +:+ c = a +:+ b +:+ c.
Proof.
  induction a as [|x a IH]; [done|].
  rewrite !append_cons. by f_equal.
Qed.

Lemma length_append (a b : string) :
  String.length (a +:+ b) = (String.length a + String.length b)%nat.
Proof.
  induction a as [|x a IH]; [done|].
  rewrite append_cons. simpl. by rewrite IH.
Qed.

Lemma substring_prefix (a b : string) : substring 0 (String.length a) (a +:+ b) = a.
Proof.
  induction a as [|x a IH].
  - rewrite append_nil. by destruct b.
  - rewrite append_cons. simpl. by rewrite IH.
Qed.

Lemma slice_archive (x : string) : Py.slice 8 4 ("archive_" +:+ x +:+ ".zip") = x.
Proof.
  unfold Py.slice. rewrite !length_append.
  replace (String.length "archive_" + (String.length x + String.length ".zip") - 4 - 8)%nat
    with (String.length x) by (simpl; lia).
  rewrite !append_cons, append_nil. simpl. apply substring_prefix.
Qed.

Lemma recovered_arch_name_stamp a :
  recovered_arch_name a = "archive_" +:+ stamp a +:+ ".zip".
Proof. unfold recovered_arch_name, stamp. by rewrite !append_assoc. Qed.

(** *** The pattern on runs of digits *)

Lemma append_nil_r (a : string) : a +:+ "" = a.
Proof.
  induction a as [|x a IH]; [done|].
  rewrite append_cons. by f_equal.
Qed.

Lemma bind_all_nil {A B} (f : A → list B) (l : list A) :
  Forall (λ x, f x = []) l → l ≫= f = [].
Proof.
  induction 1 as [|x l Hx _ IH]; [done|].
  by rewrite bind_cons, Hx, IH.
Qed.

Lemma Forall_List_filter {A} (P : A → Prop) (f : A → bool) (l : list A) :
  Forall P l → Forall P (List.filter f l).
Proof.
  induction 1 as [|x l Hx _ IH]; simpl; [done|].
  destruct (f x); [by constructor|done].
Qed.

Lemma List_filter_none {A} (f : A → bool) (l : list A) :
  Forall (λ x, f x = false) l → List.filter f l = [].
Proof.
  induction 1 as [|x l Hx _ IH]; simpl; [done|].
  by rewrite Hx.
Qed.

Lemma isdigit_not_underscore c : Py.isdigit c = true → Ascii.eqb c "_" = false.
Proof. destruct c as [[] [] [] [] [] [] [] []]; vm_compute; congruence. Qed.

Lemma isdigit_not_boundary c :
  Py.isdigit c = true → Py.isspace c = false ∧ Arrow.is_punctuation c = false.
Proof. destruct c as [[] [] [] [] [] [] [] []]; vm_compute; split; congruence. Qed.

Lemma is_word_not_boundary c :
  is_word c = true → Py.isspace c = false ∧ Arrow.is_punctuation c = false.
Proof. destruct c as [[] [] [] [] [] [] [] []]; vm_compute; split; congruence. Qed.

(** The greedy run of digits takes a whole field first; every other way to
    match stops before a digit, with fewer digits. *)
Lemma digit_run_field hi d r :
  all_digits d = true → (String.length d <= hi)%nat →
  starts_with_digit r = false →
  ∃ others,
    Arrow.digit_run hi (d +:+ r) = (d, r) :: others
    ∧ Forall (λ '(x, s), starts_with_digit s = true
                         ∧ (String.length x < String.length d)%nat) others.
Proof.
  revert hi. induction d as [|c d IH]; intros hi Hd Hlen Hr.
  - exists []. split; [|done]. rewrite append_nil.
    destruct hi, r as [|c r]; simpl in *; try done. by rewrite Hr.
  - destruct hi as [|hi]; simpl in Hlen; [lia|].
    simpl in Hd. apply andb_true_iff in Hd as [Hc Hd].
    destruct (IH hi Hd ltac:(lia) Hr) as (others & Hrun & Hothers).
    exists (((λ '(x, s), (String c x, s)) <$> others)
              ++ [(EmptyString, String c (d +:+ r))]).
    split.
    + rewrite append_cons. simpl. by rewrite Hc, Hrun.
    + apply Forall_app. split.
      * apply Forall_fmap. eapply Forall_impl; [exact Hothers|].
        intros [x s] [Hs Hx]. simpl. split; [done|lia].
      * constructor; [|done]. simpl. split; [done|lia].
Qed.

Lemma digits_field lo hi d r :
  all_digits d = true → (lo <= String.length d <= hi)%nat →
  starts_with_digit r = false →
  ∃ others,
    Arrow.digits lo hi (d +:+ r) = (d, r) :: others
    ∧ Forall (λ '(x, s), starts_with_digit s = true) others.
Proof.
  intros Hd [Hlo Hhi] Hr.
  destruct (digit_run_field hi d r Hd Hhi Hr) as (others & Hrun & Hothers).
  exists (List.filter (λ '(x, _), (lo <=? String.length x)%nat) others).
  unfold Arrow.digits. rewrite Hrun. simpl.
  rewrite (proj2 (Nat.leb_le _ _) Hlo). split; [done|].
  apply Forall_List_filter. eapply Forall_impl; [exact Hothers|].
  by intros [x s] [Hs _].
Qed.

(** A field followed by the separator. *)
Lemma digits_sep {B} lo hi d rest (k : string → string → list B) :
  all_digits d = true → (lo <= String.length d <= hi)%nat →
  (Arrow.digits lo hi (d +:+ "_" +:+ rest)
     ≫= λ '(x, s), Arrow.lit "_" s ≫= k x) = k d rest.
Proof.
  intros Hd Hlen.
  destruct (digits_field lo hi d ("_" +:+ rest) Hd Hlen) as (others & -> & Hothers);
    [done|].
  rewrite bind_cons. rewrite (bind_all_nil _ others).
  - rewrite app_nil_r. change (Arrow.lit "_" ("_" +:+ rest)) with [rest].
    rewrite bind_cons. apply app_nil_r.
  - eapply Forall_impl; [exact Hothers|].
    intros [x [|c s]] Hs; simpl in *; [done|].
    by rewrite (isdigit_not_underscore c Hs).
Qed.

(** The last field, at the end of the text. *)
Lemma digits_end {B} lo hi d (v : string → B) :
  all_digits d = true → (lo <= String.length d <= hi)%nat →
  (Arrow.digits lo hi d
     ≫= λ '(x, s), if Arrow.ending_boundary s then [v x] else []) = [v d].
Proof.
  intros Hd Hlen.
  destruct (digits_field lo hi d "" Hd Hlen) as (others & Hrun & Hothers); [done|].
  rewrite append_nil_r in Hrun. rewrite Hrun, bind_cons, (bind_all_nil _ others); [done|].
  eapply Forall_impl; [exact Hothers|].
  intros [x [|c s]] Hs; simpl in *; [done|].
  destruct (isdigit_not_boundary c Hs) as [-> ->]. done.
Qed.

(** A run of digits too short for the token. *)
Lemma digits_short lo hi d r :
  all_digits d = true → (String.length d < lo)%nat → (String.length d <= hi)%nat →
  starts_with_digit r = false →
  Arrow.digits lo hi (d +:+ r) = [].
Proof.
  intros Hd Hlo Hhi Hr.
  destruct (digit_run_field hi d r Hd Hhi Hr) as (others & Hrun & Hothers).
  unfold Arrow.digits. rewrite Hrun. apply List_filter_none.
  constructor.
  - apply Nat.leb_gt. lia.
  - eapply Forall_impl; [exact Hothers|].
    intros [x s] [_ Hx]. apply Nat.leb_gt. lia.
Qed.

Lemma search_from_eq before2 before1 s :
  Arrow.search_from before2 before1 s
  = match (if Arrow.starting_boundary before2 before1
           then head (Arrow.pattern s) else None) with
    | Some groups => Some groups
    | None =>
        match s with
        | String c s' => Arrow.search_from before1 (Some c) s'
        | EmptyString => None
        end
    end.
Proof. by destruct s. Qed.

Lemma search_head s groups :
  head (Arrow.pattern s) = Some groups → Arrow.search s = Some groups.
Proof.
  intros H. unfold Arrow.search. rewrite search_from_eq. simpl. by rewrite H.
Qed.

(** No match begins after a digit or an underscore. *)
Lemma search_from_word before2 c s :
  is_word c = true → Arrow.search_from before2 (Some c) s = None ∨ word_chars s = false.
Proof.
  revert before2 c. induction s as [|c' s IH]; intros before2 c Hc;
    rewrite search_from_eq; unfold Arrow.starting_boundary;
    destruct (is_word_not_boundary c Hc) as [-> ->]; simpl.
  - by left.
  - destruct (is_word c') eqn:Hc'; [|by right]. simpl. by apply IH.
Qed.

Lemma search_word s :
  Arrow.pattern s = [] → word_chars s = true → Arrow.search s = None.
Proof.
  intros Hp Hw. unfold Arrow.search. rewrite search_from_eq, Hp. simpl.
  destruct s as [|c s]; [done|].
  simpl in Hw. apply andb_true_iff in Hw as [Hc Hs].
  destruct (search_from_word None c s Hc) as [H|H]; [done|congruence].
Qed.

Lemma word_chars_digits s : all_digits s = true → word_chars s = true.
Proof.
  induction s as [|c s IH]; simpl; [done|].
  intros [Hc Hs]%andb_true_iff. unfold is_word. by rewrite Hc, IH.
Qed.

Lemma word_chars_sep s rest :
  all_digits s = true → word_chars rest = true →
  word_chars (s +:+ "_" +:+ rest) = true.
Proof.
  induction s as [|c s IH]; intros Hs Hrest.
  - by rewrite append_nil.
  - simpl in Hs. apply andb_true_iff in Hs as [Hc Hs].
    rewrite append_cons. simpl. unfold is_word. rewrite Hc. simpl. by apply IH.
Qed.

Lemma all_from_spec f lo n x :
  all_from f lo n = true → lo <= x < lo + Z.of_nat n → f x = true.
Proof.
  revert lo. induction n as [|n IH]; intros lo; simpl; [lia|].
  intros [H1 H2]%andb_true_iff Hx.
  destruct (decide (x = lo)) as [->|Hne]; [done|].
  apply (IH (lo + 1)); [done|lia].
Qed.

Lemma short_fields_checked : all_from short_field_ok 0 100 = true.
Proof. vm_compute. reflexivity. Qed.

Lemma year_fields_checked : all_from year_field_ok 1000 (Z.to_nat 9000) = true.
Proof. vm_compute. reflexivity. Qed.

Lemma short_field n :
  0 <= n < 100 →
  all_digits (Py.str n) = true
  ∧ (1 <= String.length (Py.str n) <= 2)%nat
  ∧ Py.int_digits 0 (Py.str n) = Some n.
Proof.
  intros Hn.
  assert (H : short_field_ok n = true).
  { apply (all_from_spec _ _ _ n short_fields_checked). lia. }
  unfold short_field_ok in H.
  apply andb_true_iff in H as [H H4]. apply andb_true_iff in H as [H H3].
  apply andb_true_iff in H as [H1 H2].
  apply Nat.leb_le in H2, H3. split_and!; [done|done|done|].
  destruct (Py.int_digits 0 (Py.str n)) as [k|]; [|done].
  apply Z.eqb_eq in H4. by subst.
Qed.

Lemma year_field n :
  1000 <= n < 10000 →
  all_digits (Py.str n) = true
  ∧ String.length (Py.str n) = 4%nat
  ∧ Py.int_digits 0 (Py.str n) = Some n.
Proof.
  intros Hn.
  assert (H : year_field_ok n = true).
  { apply (all_from_spec _ _ _ n year_fields_checked). lia. }
  unfold year_field_ok in H.
  apply andb_true_iff in H as [H H3]. apply andb_true_iff in H as [H1 H2].
  apply Nat.eqb_eq in H2. split_and!; [done|done|].
  destruct (Py.int_digits 0 (Py.str n)) as [k|]; [|done].
  apply Z.eqb_eq in H3. by subst.
Qed.

Lemma days_in_month_le_31 y m : Arrow.days_in_month y m <= 31.
Proof. unfold Arrow.days_in_month. repeat case_match; lia. Qed.

Lemma days_in_month_ge_28 y m : 28 <= Arrow.days_in_month y m.
Proof. unfold Arrow.days_in_month. repeat case_match; lia. Qed.

Lemma valid_ranges a :
  Arrow.valid a = true →
  1 <= Arrow.year a < 10000 ∧ 0 <= Arrow.month a < 100 ∧ 0 <= Arrow.day a < 100
  ∧ 0 <= Arrow.hour a < 24 ∧ 0 <= Arrow.minute a < 100.
Proof.
  unfold Arrow.valid. rewrite !andb_true_iff, !Z.leb_le.
  pose proof (days_in_month_le_31 (Arrow.year a) (Arrow.month a)). lia.
Qed.

(** The groups the pattern finds in a rebuilt name. *)
Lemma pattern_fields d m y H M :
  all_digits d = true → (1 <= String.length d <= 2)%nat →
  all_digits m = true → (1 <= String.length m <= 2)%nat →
  all_digits y = true → String.length y = 4%nat →
  all_digits H = true → (1 <= String.length H <= 2)%nat →
  all_digits M = true → (1 <= String.length M <= 2)%nat →
  Arrow.pattern (d +:+ "_" +:+ m +:+ "_" +:+ y +:+ "_" +:+ H +:+ "_" +:+ M)
  = [(d, m, y, H, M)].
Proof.
  intros. unfold Arrow.pattern.
  rewrite (digits_sep 1 2 d) by done.
  rewrite (digits_sep 1 2 m) by done.
  rewrite (digits_sep 4 4 y) by (done || lia).
  rewrite (digits_sep 1 2 H) by done.
  by rewrite (digits_end 1 2 M).
Qed.

(** [arrow.get] reads a rebuilt name back to the date it was built from. *)
Lemma get_stamp a :
  Arrow.valid a = true → 1000 <= Arrow.year a → Arrow.get (stamp a) = Ok a.
Proof.
  intros Hv Hy. destruct (valid_ranges a Hv) as (Hy' & Hm & Hd & HH & HM).
  destruct (short_field _ Hm) as (Dm & Lm & Pm), (short_field _ Hd) as (Dd & Ld & Pd),
    (short_field (Arrow.hour a)) as (DH & LH & PH); [lia|].
  destruct (short_field _ HM) as (DM & LM & PM),
    (year_field (Arrow.year a)) as (Dy & Ly & Py); [lia|].
  unfold Arrow.get.
  rewrite (search_head _ (Py.str (Arrow.day a), Py.str (Arrow.month a),
                          Py.str (Arrow.year a), Py.str (Arrow.hour a),
                          Py.str (Arrow.minute a))).
  - rewrite Pd, Pm, Py, PH, PM. unfold Arrow.build_datetime.
    rewrite (proj2 (Z.eqb_neq _ _)) by lia.
    destruct a; simpl in *. by rewrite Hv.
  - unfold stamp. by rewrite pattern_fields.
Qed.

Lemma timestamp_of_recovered a :
  Arrow.valid a = true → 1000 <= Arrow.year a →
  timestamp_of (recovered_arch_name a) = Some a.
Proof.
  intros Hv Hy. unfold timestamp_of.
  by rewrite recovered_arch_name_stamp, slice_archive, get_stamp.
Qed.

Lemma canonical_timestamp n :
  canonical n → ∃ a, timestamp_of n = Some a ∧ recovered_arch_name a = n.
Proof.
  intros (a & Hv & Hy & ->). exists a. split; [|done].
  by apply timestamp_of_recovered.
Qed.

(** ** The sorter *)

Lemma date_objects_of_omap names :
  Forall (λ n, is_Some (timestamp_of n)) names →
  collect date_of names = Ok (omap timestamp_of names).
Proof.
  induction 1 as [|n names [d Hd] _ IH]; [done|].
  cbn [collect]. change (omap ?f (?x :: ?l))
    with (match f x with Some y => y :: omap f l | None => omap f l end).
  rewrite Hd, IH. unfold timestamp_of in Hd. unfold date_of at 1.
  destruct (Arrow.get (Py.slice 8 4 n)); by simplify_eq.
Qed.

Lemma omap_timestamp_canonical names :
  Forall canonical names →
  recovered_arch_name <$> omap timestamp_of names = names
  ∧ Forall (λ d, timestamp_of (recovered_arch_name d) = Some d)
      (omap timestamp_of names).
Proof.
  induction 1 as [|n names (a & Ha & Hn)%canonical_timestamp _ [IH1 IH2]]; [done|].
  change (omap ?f (?x :: ?l))
    with (match f x with Some y => y :: omap f l | None => omap f l end).
  rewrite Ha. split.
  - cbn [fmap list_fmap]. by rewrite Hn, IH1.
  - constructor; [|done]. by rewrite Hn.
Qed.

Lemma StronglySorted_recovered ds :
  Forall (λ d, timestamp_of (recovered_arch_name d) = Some d) ds →
  StronglySorted Arrow.le ds →
  StronglySorted name_le (recovered_arch_name <$> ds).
Proof.
  intros Hts Hs. induction Hs as [|d ds Hs IH Hd]; [constructor|].
  inv Hts. cbn [fmap list_fmap]. constructor; [by apply IH|].
  apply Forall_fmap, Forall_forall. intros d' Hd'.
  unfold name_le, compose.
  rewrite Forall_forall in Hd, H2. by rewrite H1, (H2 d' Hd'); auto.
Qed.

(** C2, amended: on file names in the form the program writes them, the
    sorter returns exactly the input names, in ascending order of their
    timestamps. *)
Theorem sort_filenames_canonical names :
  Forall canonical names →
  ∃ out, _sort_filenames_by_date names = Ok out
         ∧ out ≡ₚ names
         ∧ StronglySorted name_le out.
Proof.
  intros Hc.
  assert (Hsome : Forall (λ n, is_Some (timestamp_of n)) names).
  { eapply Forall_impl; [exact Hc|]. intros n (a & Ha & _)%canonical_timestamp.
    by exists a. }
  destruct (omap_timestamp_canonical names Hc) as [Hnames Hts].
  exists (recovered_arch_name <$> sorted (omap timestamp_of names)).
  rewrite sort_filenames_unfold, (date_objects_of_omap names Hsome). simpl.
  split_and!; [done| |].
  - rewrite <- Hnames at 2. unfold sorted. by rewrite merge_sort_Permutation.
  - apply StronglySorted_recovered.
    + unfold sorted. by rewrite merge_sort_Permutation.
    + apply StronglySorted_merge_sort; apply _.
Qed.

Lemma sort_filenames_canonical_witness :
  ∃ out, _sort_filenames_by_date
           ["archive_2_1_2021_10_30.zip"; "archive_31_12_2020_23_59.zip"] = Ok out
         ∧ out ≡ₚ ["archive_2_1_2021_10_30.zip"; "archive_31_12_2020_23_59.zip"]
         ∧ StronglySorted name_le out.
Proof.
  apply sort_filenames_canonical.
  repeat constructor.
  - exists (Arrow.mk 2021 1 2 10 30). split_and!; [reflexivity|simpl; lia|reflexivity].
  - exists (Arrow.mk 2020 12 31 23 59). split_and!; [reflexivity|simpl; lia|reflexivity].
Defined.

(** C2, as stated, fails: a zero-padded name is accepted by the sorter
    and comes back rewritten, so the output is not made of the input
    names. *)
Lemma sort_filenames_rewrites_padded_name :
  Forall (λ n, is_Some (timestamp_of n)) ["archive_01_02_2021_03_04.zip"]
  ∧ _sort_filenames_by_date ["archive_01_02_2021_03_04.zip"]
    = Ok ["archive_1_2_2021_3_4.zip"]
  ∧ ¬ (["archive_1_2_2021_3_4.zip"] ≡ₚ ["archive_01_02_2021_03_04.zip"]).
Proof.
  split_and!.
  - repeat constructor. eexists. vm_compute. reflexivity.
  - vm_compute. reflexivity.
  - intros Hp. apply Permutation_singleton_inj in Hp. discriminate.
Qed.

(** C8: two listings of the same valid file names, in whatever order,
    give the same output list. *)
Theorem sort_filenames_permutation names1 names2 :
  names1 ≡ₚ names2 →
  Forall (λ n, is_Some (timestamp_of n)) names1 →
  ∃ out, _sort_filenames_by_date names1 = Ok out
         ∧ _sort_filenames_by_date names2 = Ok out.
Proof.
  intros Hp H1.
  assert (H2 : Forall (λ n, is_Some (timestamp_of n)) names2) by by rewrite <- Hp.
  exists (recovered_arch_name <$> sorted (omap timestamp_of names1)).
  rewrite !sort_filenames_unfold, (date_objects_of_omap _ H1),
    (date_objects_of_omap _ H2). simpl. split; [done|].
  do 2 f_equal. apply sorted_permutation. by rewrite Hp.
Qed.

Lemma sort_filenames_permutation_witness :
  ∃ out,
    _sort_filenames_by_date
      ["archive_2_1_2021_10_30.zip"; "archive_31_12_2020_23_59.zip";
       "archive_1_1_2021_9_5.zip"] = Ok out
    ∧ _sort_filenames_by_date
        ["archive_1_1_2021_9_5.zip"; "archive_2_1_2021_10_30.zip";
         "archive_31_12_2020_23_59.zip"] = Ok out.
Proof.
  apply sort_filenames_permutation.
  - symmetry.
    apply (Permutation_cons_append
             ["archive_2_1_2021_10_30.zip"; "archive_31_12_2020_23_59.zip"]
             "archive_1_1_2021_9_5.zip").
  - repeat constructor; eexists; vm_compute; reflexivity.
Defined.

(** ** Trimming *)

Lemma lstrip_spec s :
  ∃ l, s = l +:+ Py.lstrip s ∧ all_space l = true
       ∧ starts_with_space (Py.lstrip s) = false.
Proof.
  induction s as [|c s (l & Hs & Hl & Hst)]; [by exists ""|].
  simpl. destruct (Py.isspace c) eqn:Hc.
  - exists (String c l). rewrite append_cons, <- Hs. simpl. by rewrite Hc, Hl.
  - exists "". simpl. by rewrite Hc.
Qed.

Lemma rstrip_spec s :
  ∃ r, s = Py.rstrip s +:+ r ∧ all_space r = true
       ∧ ends_with_space (Py.rstrip s) = false
       ∧ (starts_with_space s = false → starts_with_space (Py.rstrip s) = false).
Proof.
  induction s as [|c s (r & Hs & Hr & He & _)]; [by exists ""|].
  simpl. destruct (Py.rstrip s) as [|d t] eqn:Hrs.
  - rewrite append_nil in Hs. subst r.
    destruct (Py.isspace c) eqn:Hc.
    + exists (String c s). simpl. by rewrite Hc, Hr.
    + exists s. simpl. by rewrite Hc.
  - exists r. rewrite append_cons, <- Hs. by simpl in *.
Qed.

Lemma strip_spec s :
  ∃ l r, s = l +:+ Py.strip s +:+ r
         ∧ all_space l = true ∧ all_space r = true
         ∧ starts_with_space (Py.strip s) = false
         ∧ ends_with_space (Py.strip s) = false.
Proof.
  destruct (lstrip_spec s) as (l & Hs & Hl & Hst).
  destruct (rstrip_spec (Py.lstrip s)) as (r & Hs' & Hr & He & Hst').
  exists l, r. unfold Py.strip. split_and!; [|done|done|by apply Hst'|done].
  by rewrite <- Hs', <- Hs.
Qed.

(** ** The table parser *)

Lemma parse_table_rows table :
  _parse_table table = row_of <$> bs4.find_all "tr" table.
Proof.
  unfold _parse_table.
  rewrite (fold_left_snoc
             (λ tr, fold_left (λ td_contents td,
                                 td_contents ++ [Py.strip (bs4.text td)])
                      (bs4.find_all "td" tr) [])).
  simpl. apply list_fmap_ext. intros _ tr _.
  by rewrite (fold_left_snoc (λ td, Py.strip (bs4.text td))).
Qed.

Lemma descendants_cons name c cs :
  bs4.descendants (bs4.Tag name (c :: cs))
  = c :: bs4.descendants c ++ bs4.descendants (bs4.Tag name cs).
Proof. reflexivity. Qed.

Lemma descendants_strings name texts :
  bs4.descendants (bs4.Tag name (bs4.NavigableString <$> texts))
  = bs4.NavigableString <$> texts.
Proof.
  induction texts as [|t texts IH]; [done|].
  cbn [fmap list_fmap]. rewrite descendants_cons. simpl. f_equal. apply IH.
Qed.

Lemma find_all_header_cells name cells tag :
  tag ≠ "th" → Forall header_cell cells →
  bs4.find_all tag (bs4.Tag name cells) = [].
Proof.
  intros Htag. unfold bs4.find_all. induction 1 as [|c cs [texts ->] _ IH]; [done|].
  rewrite descendants_cons, descendants_strings.
  cbn [List.filter bs4.has_name]. rewrite List.filter_app, IH, app_nil_r.
  destruct (String.eqb_spec "th" tag) as [<-|_]; [done|].
  induction texts as [|t texts IHt]; [done|]. apply IHt.
Qed.

Lemma PageElement_tree_ind (P : bs4.PageElement → Prop) :
  (∀ s, P (bs4.NavigableString s)) →
  (∀ name contents, Forall P contents → P (bs4.Tag name contents)) →
  ∀ e, P e.
Proof.
  intros Hs Ht. fix IH 1. intros [s|name contents]; [apply Hs|].
  apply Ht. induction contents as [|c cs IHcs]; constructor; [apply IH|apply IHcs].
Qed.

Lemma descendants_app name cs1 cs2 :
  bs4.descendants (bs4.Tag name (cs1 ++ cs2))
  = bs4.descendants (bs4.Tag name cs1) ++ bs4.descendants (bs4.Tag name cs2).
Proof. cbn [bs4.descendants]. apply List.flat_map_app. Qed.

Lemma descendants_rename name name' cs :
  bs4.descendants (bs4.Tag name cs) = bs4.descendants (bs4.Tag name' cs).
Proof. reflexivity. Qed.

Lemma find_all_app tag name cs1 cs2 :
  bs4.find_all tag (bs4.Tag name (cs1 ++ cs2))
  = bs4.find_all tag (bs4.Tag name cs1) ++ bs4.find_all tag (bs4.Tag name cs2).
Proof. unfold bs4.find_all. by rewrite descendants_app, List.filter_app. Qed.

Lemma find_all_cons tag name c cs :
  bs4.find_all tag (bs4.Tag name (c :: cs))
  = (if bs4.has_name tag c then [c] else [])
    ++ bs4.find_all tag c ++ bs4.find_all tag (bs4.Tag name cs).
Proof.
  unfold bs4.find_all. rewrite descendants_cons. cbn [List.filter].
  rewrite List.filter_app. by destruct (bs4.has_name tag c).
Qed.

Lemma descendants_trans e e' x :
  e' ∈ bs4.descendants e → x ∈ bs4.descendants e' → x ∈ bs4.descendants e.
Proof.
  revert e' x. induction e as [s|name cs IH] using PageElement_tree_ind;
    intros e' x He' Hx; [by apply elem_of_nil in He'|].
  induction IH as [|c cs IHc _ IHcs].
  - by apply elem_of_nil in He'.
  - rewrite descendants_cons in He' |- *.
    apply elem_of_cons in He' as [->|He'].
    + right. apply elem_of_app. by left.
    + apply elem_of_app in He' as [He'|He'].
      * right. apply elem_of_app. left. by apply (IHc e').
      * right. apply elem_of_app. right. by apply IHcs.
Qed.

Lemma elem_of_find_all tag e x :
  x ∈ bs4.find_all tag e ↔ x ∈ bs4.descendants e ∧ bs4.has_name tag x = true.
Proof.
  unfold bs4.find_all. rewrite list_elem_of_In, List.filter_In, <- list_elem_of_In.
  done.
Qed.

Lemma sublist_List_filter {A} (f : A → bool) (l : list A) :
  List.filter f l `sublist_of` l.
Proof.
  induction l as [|x l IH]; simpl; [done|].
  destruct (f x); by constructor.
Qed.

Lemma find_all_tag name e x :
  x ∈ bs4.find_all name e
  ↔ x ∈ bs4.descendants e ∧ ∃ contents, x = bs4.Tag name contents.
Proof.
  rewrite elem_of_find_all. split; intros [Hx Hname]; (split; [done|]).
  - destruct x as [|name' contents]; [done|]. simpl in Hname.
    apply String.eqb_eq in Hname as ->. by exists contents.
  - destruct Hname as [contents ->]. simpl. apply String.eqb_refl.
Qed.

Lemma find_all_nil name e :
  bs4.find_all name e = []
  ↔ ∀ x, x ∈ bs4.descendants e → bs4.has_name name x = false.
Proof.
  split.
  - intros Hnil x Hx. destruct (bs4.has_name name x) eqn:Hname; [|done].
    assert (Hin : x ∈ bs4.find_all name e) by by apply elem_of_find_all.
    rewrite Hnil in Hin. by apply elem_of_nil in Hin.
  - intros Hall. apply List_filter_none, Forall_forall. exact Hall.
Qed.

(** *** Tables without nesting *)

Lemma no_rows_or_cells_find_all e :
  no_rows_or_cells e = true →
  bs4.find_all "tr" e = [] ∧ bs4.find_all "td" e = [].
Proof.
  unfold no_rows_or_cells. rewrite forallb_forall. intros Hall.
  split; apply find_all_nil; intros x Hx%list_elem_of_In%Hall;
    apply andb_true_iff in Hx as [H1 H2];
    by apply negb_true_iff in H1, H2.
Qed.

Lemma plain_cells_find_all name cells :
  forallb plain_cell cells = true →
  bs4.find_all "tr" (bs4.Tag name cells) = []
  ∧ bs4.find_all "td" (bs4.Tag name cells) = List.filter (bs4.has_name "td") cells.
Proof.
  induction cells as [|c cells IH]; [done|].
  cbn [forallb]. intros [Hc Hcells]%andb_true_iff.
  destruct (IH Hcells) as [IHtr IHtd].
  apply andb_true_iff in Hc as [Hname%negb_true_iff Hbelow].
  destruct (no_rows_or_cells_find_all c Hbelow) as [Htr Htd].
  rewrite !find_all_cons, Hname, Htr, Htd, IHtr, IHtd. split; [done|].
  cbn [List.filter]. by destruct (bs4.has_name "td" c).
Qed.

Lemma plain_row_find_all r :
  plain_row r = true →
  bs4.has_name "tr" r = true
  ∧ bs4.find_all "tr" r = []
  ∧ bs4.find_all "td" r = cells_of_row r.
Proof.
  unfold plain_row. intros [Hname Hcells]%andb_true_iff.
  destruct r as [|name cells]; [done|].
  destruct (plain_cells_find_all name cells Hcells) as [Htr Htd]. done.
Qed.

Lemma contents_descendants e x : x ∈ contents_of e → x ∈ bs4.descendants e.
Proof.
  destruct e as [s|name cs]; [done|]. cbn [contents_of].
  induction cs as [|c cs IH]; [done|].
  rewrite descendants_cons. intros [->|Hx]%elem_of_cons; [by left|].
  right. apply elem_of_app. right. by apply IH.
Qed.

Lemma filler_find_all e :
  filler e = true →
  bs4.has_name "tr" e = false ∧ bs4.find_all "tr" e = []
  ∧ List.filter (bs4.has_name "tr") (contents_of e) = [].
Proof.
  unfold filler. intros [[Htr%negb_true_iff _]%andb_true_iff Hbelow]%andb_true_iff.
  destruct (no_rows_or_cells_find_all e Hbelow) as [Hnone _].
  split_and!; [done|done|].
  apply List_filter_none, Forall_forall. intros x Hx%contents_descendants.
  by apply (proj1 (find_all_nil "tr" e)).
Qed.

Lemma plain_rows_find_all name rows :
  forallb (λ r, plain_row r || filler r) rows = true →
  bs4.find_all "tr" (bs4.Tag name rows) = List.filter (bs4.has_name "tr") rows
  ∧ Forall (λ r, plain_row r = true) (List.filter (bs4.has_name "tr") rows).
Proof.
  induction rows as [|r rows IH]; [done|].
  cbn [forallb]. intros [Hr Hrows]%andb_true_iff.
  destruct (IH Hrows) as [IHtr IHall].
  rewrite find_all_cons, IHtr. cbn [List.filter].
  apply orb_true_iff in Hr as [Hr|Hr].
  - destruct (plain_row_find_all r Hr) as (-> & -> & _). split; [done|].
    by constructor.
  - by destruct (filler_find_all r Hr) as (-> & -> & _).
Qed.

Lemma plain_table_find_all table :
  plain_table table = true →
  bs4.find_all "tr" table = rows_of_table table
  ∧ Forall (λ r, plain_row r = true) (rows_of_table table).
Proof.
  unfold plain_table, rows_of_table.
  destruct table as [s|name rows]; [done|]. cbn [contents_of].
  induction rows as [|c rows IH]; [done|].
  cbn [forallb]. intros [Hc Hrows]%andb_true_iff.
  destruct (IH Hrows) as [IHtr IHall].
  rewrite find_all_cons, IHtr. cbn [flat_map].
  apply orb_true_iff in Hc as [Hc|Hc]; [apply orb_true_iff in Hc as [Hc|Hc]|].
  - destruct (plain_row_find_all c Hc) as (-> & -> & _). split; [done|].
    by constructor.
  - destruct (filler_find_all c Hc) as (-> & -> & ->). by destruct (is_section c).
  - unfold plain_section in Hc. apply andb_true_iff in Hc as [Hsec Hc].
    assert (Hname : bs4.has_name "tr" c = false).
    { unfold is_section in Hsec. destruct c as [|n cs]; [done|]. simpl in *.
      destruct (String.eqb_spec n "tr") as [->|_]; [done|done]. }
    rewrite Hname, Hsec. destruct c as [|n cs]; [done|]. cbn [contents_of] in *.
    destruct (plain_rows_find_all n cs Hc) as [-> Hall].
    split; [done|]. by apply Forall_app.
Qed.

Lemma parse_table_plain table :
  plain_table table = true → _parse_table table = table_as_claimed table.
Proof.
  intros Hplain. destruct (plain_table_find_all table Hplain) as [Hrows Hall].
  rewrite parse_table_rows, Hrows. unfold table_as_claimed.
  apply Forall_fmap_ext. eapply Forall_impl; [exact Hall|].
  intros r Hr. unfold row_of.
  by destruct (plain_row_find_all r Hr) as (_ & _ & ->).
Qed.

(** C6: [_parse_table] returns one row for each [tr] tag at any depth
    below the table (the rows of a table nested in it included), in
    document order; a row is the list, in document order, of the trimmed
    text of the [td] tags at any depth below that [tr] (the cells of nested
    rows included), and of nothing else.  A [th] tag gives no cell: a row
    is empty exactly when no [td] tag lies below its [tr], as when it holds
    header cells only.  On a table without nesting these are the rows of
    the table and the data cells of each row.  Trimmed means that only
    white space was removed, from both ends, and that none is left
    there. *)
Theorem parse_table_td_text :
  (∀ table,
      _parse_table table
      = (λ tr, (λ td, Py.strip (bs4.text td)) <$> bs4.find_all "td" tr)
          <$> bs4.find_all "tr" table)
  ∧ (∀ name e, bs4.find_all name e `sublist_of` bs4.descendants e)
  ∧ (∀ name e x,
        x ∈ bs4.find_all name e
        ↔ x ∈ bs4.descendants e ∧ ∃ contents, x = bs4.Tag name contents)
  ∧ (∀ tr, (λ td, Py.strip (bs4.text td)) <$> bs4.find_all "td" tr = []
           ↔ ∀ x, x ∈ bs4.descendants tr → bs4.has_name "td" x = false)
  ∧ (∀ cells, Forall header_cell cells →
              _parse_table (bs4.Tag "table" [bs4.Tag "tr" cells]) = [[]])
  ∧ (∀ table, plain_table table = true →
              _parse_table table = table_as_claimed table)
  ∧ _parse_table
      (bs4.Tag "table"
         [bs4.Tag "tr" [bs4.Tag "th" [bs4.NavigableString "Open"];
                        bs4.Tag "th" [bs4.NavigableString "Close"]];
          bs4.Tag "tr" [bs4.Tag "td" [bs4.NavigableString " 10 "];
                        bs4.Tag "th" [bs4.NavigableString "x"];
                        bs4.Tag "td" [bs4.Tag "b" [bs4.NavigableString "20"];
                                      bs4.NavigableString " "]]])
    = [[]; ["10"; "20"]]
  ∧ (∀ s, ∃ l r, s = l +:+ Py.strip s +:+ r
                 ∧ all_space l = true ∧ all_space r = true
                 ∧ starts_with_space (Py.strip s) = false
                 ∧ ends_with_space (Py.strip s) = false).
Proof.
  split_and!.
  - apply parse_table_rows.
  - intros name e. apply sublist_List_filter.
  - apply find_all_tag.
  - intros tr. rewrite <- find_all_nil. split.
    + by intros ->%fmap_nil_inv.
    + by intros ->.
  - intros cells Hcells. rewrite parse_table_rows.
    assert (Htr : bs4.find_all "tr" (bs4.Tag "table" [bs4.Tag "tr" cells])
                  = [bs4.Tag "tr" cells]).
    { unfold bs4.find_all. rewrite descendants_cons.
      cbn [List.filter bs4.has_name String.eqb Ascii.eqb Bool.eqb].
      change (bs4.descendants (bs4.Tag "table" [])) with (@nil bs4.PageElement).
      rewrite app_nil_r.
      by rewrite (find_all_header_cells "tr" cells "tr" ltac:(done) Hcells
                  : List.filter _ _ = []). }
    rewrite Htr. cbn [fmap list_fmap]. unfold row_of.
    by rewrite (find_all_header_cells "tr" cells "td").
  - apply parse_table_plain.
  - vm_compute. reflexivity.
  - apply strip_spec.
Qed.

(** A table of one row and one data cell, with a table of one row and one
    cell in that cell: the rows of the table, as the specification words
    them, are one row of one cell; [_parse_table] returns two rows, and
    twice the text in the first. *)
Lemma parse_table_counts_nested_rows :
  table_as_claimed Sample3.nested_table = [["x"]]
  ∧ _parse_table Sample3.nested_table = [["x"; "x"]; ["x"]].
Proof. split; vm_compute; reflexivity. Qed.

(** ** The pipeline *)

Lemma Pool_map_collect {A B} (f : A → result B) xs :
  Pool_map f xs = collect f xs.
Proof.
  unfold Pool_map. rewrite for_each_collect. by destruct (collect f xs).
Qed.

Lemma zf_read_Ok zf f_name :
  f_name ∈ zf.*1 → ∃ data, zf_read zf f_name = Ok data.
Proof.
  intros Hin. unfold zf_read.
  destruct (List.find (λ e, String.eqb e.1 f_name) (rev zf)) as [e|] eqn:Hfind.
  - by exists e.2.
  - apply list_elem_of_fmap in Hin as ([k v] & -> & Hin).
    apply list_elem_of_In, in_rev in Hin.
    pose proof (List.find_none _ _ Hfind _ Hin) as Hk. simpl in Hk.
    by rewrite String.eqb_refl in Hk.
Qed.

Lemma NoDup_fst_unique {A B} (l : list (A * B)) x y1 y2 :
  NoDup l.*1 → (x, y1) ∈ l → (x, y2) ∈ l → y1 = y2.
Proof.
  induction l as [|[a b] l IH]; csimpl; intros Hnd H1 H2.
  - by apply elem_of_nil in H1.
  - apply NoDup_cons in Hnd as [Hnotin Hnd].
    apply elem_of_cons in H1 as [H1|H1], H2 as [H2|H2]; simplify_eq.
    + done.
    + destruct Hnotin. apply list_elem_of_fmap. by exists (a, y2).
    + destruct Hnotin. apply list_elem_of_fmap. by exists (a, y1).
    + by apply IH.
Qed.

Lemma zf_read_unique zf k v :
  NoDup zf.*1 → (k, v) ∈ zf → zf_read zf k = Ok v.
Proof.
  intros Hnd Hin. unfold zf_read.
  destruct (List.find (λ e, String.eqb e.1 k) (rev zf)) as [[k' v']|] eqn:Hfind.
  - apply List.find_some in Hfind as [He Hk]. simpl in *.
    apply in_rev, list_elem_of_In in He. apply String.eqb_eq in Hk. subst k'.
    f_equal. by apply (NoDup_fst_unique zf k).
  - apply list_elem_of_In, in_rev in Hin.
    pose proof (List.find_none _ _ Hfind _ Hin) as Hk. simpl in Hk.
    by rewrite String.eqb_refl in Hk.
Qed.

Lemma dict_set_fresh {V} k (v : V) d :
  k ∉ d.*1 → dict_set k v d = d ++ [(k, v)].
Proof.
  induction d as [|[k' v'] d IH]; csimpl; intros Hk; [done|].
  apply not_elem_of_cons in Hk as [Hne Hk].
  destruct (String.eqb_spec k' k) as [->|_]; [done|]. by rewrite IH.
Qed.

Lemma read_loop_distinct zf done todo :
  NoDup zf.*1 → zf = done ++ todo →
  for_each (λ html_dict f_name,
              let* data := zf_read zf f_name in
              Ok (dict_set f_name data html_dict)) (map fst todo) done
  = Ok zf.
Proof.
  revert done. induction todo as [|[k v] todo IH]; intros done Hnd Hzf; simpl.
  - by rewrite Hzf, app_nil_r.
  - rewrite (zf_read_unique zf k v Hnd).
    2:{ rewrite Hzf. apply elem_of_app. right. by left. }
    simpl. rewrite dict_set_fresh.
    + apply IH; [done|]. by rewrite <- app_assoc.
    + rewrite Hzf, fmap_app in Hnd. apply NoDup_app in Hnd as (_ & Hnd & _).
      intros Hin. apply (Hnd k Hin). by left.
Qed.

Section PipelineProperties.

Context (BeautifulSoup : bytes → bs4.PageElement).
Context (ZipFile : string → result (list (string * bytes))).
Context (os_listdir : string → result (list string)).
Context (os_path_join : string → string → string).

Local Abbreviation parse_html' := (parse_html BeautifulSoup).
Local Abbreviation parse_html_printed' := (parse_html_printed BeautifulSoup).
Local Abbreviation parsed_entry' := (parsed_entry BeautifulSoup).
Local Abbreviation store_entry' := (store_entry BeautifulSoup).
Local Abbreviation diagnostic' := (diagnostic BeautifulSoup).
Local Abbreviation read_html_from_archive' := (read_html_from_archive ZipFile).
Local Abbreviation get_html_dict' := (get_html_dict BeautifulSoup ZipFile).
Local Abbreviation generate_sorted_paths_to_archives' :=
  (generate_sorted_paths_to_archives os_listdir os_path_join).
Local Abbreviation main' := (main BeautifulSoup ZipFile os_listdir os_path_join).

Lemma parsed_entry_None key value :
  parsed_entry' key value = None
  ↔ re.match_ key = None ∨ bs4.find "table" (BeautifulSoup value) = None.
Proof.
  unfold parsed_entry.
  destruct (re.match_ key), (bs4.find "table" (BeautifulSoup value)); naive_solver.
Qed.

Lemma parsed_entry_Some key value code t :
  parsed_entry' key value = Some (code, t)
  ↔ ∃ m table, re.match_ key = Some m ∧ re.group1 m = code
               ∧ bs4.find "table" (BeautifulSoup value) = Some table
               ∧ _parse_table table = t.
Proof.
  unfold parsed_entry.
  destruct (re.match_ key), (bs4.find "table" (BeautifulSoup value)); naive_solver.
Qed.

Lemma parse_html_try_spec contents key value :
  parse_html_try BeautifulSoup contents key value
  = match parsed_entry' key value with
    | Some (company_name, table_contents) =>
        Ok (<[company_name := table_contents]> contents)
    | None => Raise AttributeError
    end.
Proof.
  unfold parse_html_try, parsed_entry.
  destruct (re.match_ key); simpl; [|done].
  by destruct (bs4.find "table" (BeautifulSoup value)).
Qed.

Lemma parse_html_step_spec st item :
  parse_html_step BeautifulSoup st item
  = Ok (st.1 ++ diagnostic' item, store_entry' st.2 item).
Proof.
  destruct st as [printed contents], item as [key value].
  unfold parse_html_step, store_entry, diagnostic. rewrite parse_html_try_spec.
  simpl. destruct (parsed_entry' key value) as [[code t]|]; simpl; [|done].
  by rewrite app_nil_r.
Qed.

Lemma parse_html_loop_from html_dict st :
  for_each (parse_html_step BeautifulSoup) html_dict st
  = Ok (st.1 ++ concat (diagnostic' <$> html_dict),
        fold_left store_entry' html_dict st.2).
Proof.
  revert st. induction html_dict as [|item d IH]; intros st; simpl.
  - rewrite app_nil_r. by destruct st.
  - rewrite parse_html_step_spec. simpl. rewrite IH. simpl.
    by rewrite <- app_assoc.
Qed.

Lemma parse_html_spec html_dict :
  parse_html' html_dict = Ok (fold_left store_entry' html_dict ∅).
Proof.
  unfold parse_html, parse_html_loop. by rewrite parse_html_loop_from.
Qed.

Lemma parse_html_printed_spec html_dict :
  parse_html_printed' html_dict = Ok (concat (diagnostic' <$> html_dict)).
Proof.
  unfold parse_html_printed, parse_html_loop. by rewrite parse_html_loop_from.
Qed.

Lemma store_entry_failed contents key value :
  parsed_entry' key value = None → store_entry' contents (key, value) = contents.
Proof. unfold store_entry. simpl. by intros ->. Qed.

Lemma store_entry_parsed contents key value code t :
  parsed_entry' key value = Some (code, t) →
  store_entry' contents (key, value) = <[code := t]> contents.
Proof. unfold store_entry. simpl. by intros ->. Qed.

Lemma fold_store_other html_dict contents code :
  (∀ key value t, (key, value) ∈ html_dict →
                  parsed_entry' key value ≠ Some (code, t)) →
  fold_left store_entry' html_dict contents !! code = contents !! code.
Proof.
  revert contents. induction html_dict as [|[key value] d IH]; intros contents Hno; [done|].
  simpl. rewrite IH.
  - unfold store_entry. simpl.
    destruct (parsed_entry' key value) as [[code' t]|] eqn:E; [|done].
    apply lookup_insert_ne. intros ->. by eapply (Hno key value t); [left|].
  - intros k v t Hin. apply Hno. by right.
Qed.

Lemma fold_store_origin html_dict contents code t :
  fold_left store_entry' html_dict contents !! code = Some t →
  contents !! code = Some t
  ∨ ∃ key value, (key, value) ∈ html_dict ∧ parsed_entry' key value = Some (code, t).
Proof.
  revert contents. induction html_dict as [|[key value] d IH]; intros contents; [by left|].
  simpl. intros [Hc|(k & v & Hin & Hp)]%IH.
  - unfold store_entry in Hc. simpl in Hc.
    destruct (parsed_entry' key value) as [[code' t']|] eqn:E; [|by left].
    destruct (decide (code' = code)) as [->|Hne].
    + rewrite lookup_insert_eq in Hc. simplify_eq.
      right. exists key, value. split; [by left|done].
    + rewrite lookup_insert_ne in Hc by done. by left.
  - right. exists k, v. split; [by right|done].
Qed.

Lemma fold_store_present html_dict contents key value code t :
  (key, value) ∈ html_dict → parsed_entry' key value = Some (code, t) →
  is_Some (fold_left store_entry' html_dict contents !! code).
Proof.
  intros Hin Hp. apply list_elem_of_split in Hin as (l1 & l2 & ->).
  rewrite fold_left_app. simpl. rewrite (store_entry_parsed _ _ _ _ _ Hp).
  generalize (fold_left store_entry' l1 contents). intros c.
  assert (Hs : is_Some (<[code := t]> c !! code)) by (rewrite lookup_insert_eq; eauto).
  revert Hs. generalize (<[code := t]> c). clear.
  induction l2 as [|[k v] l2 IH]; intros c Hs; [done|].
  simpl. apply IH. unfold store_entry. simpl.
  destruct (parsed_entry' k v) as [[code' t']|]; [|done].
  destruct (decide (code' = code)) as [->|Hne].
  - rewrite lookup_insert_eq. eauto.
  - by rewrite lookup_insert_ne.
Qed.

Lemma read_html_from_archive_total path zf :
  ZipFile path = Ok zf → ∃ raw, read_html_from_archive' path = Ok raw.
Proof.
  intros Hzf. unfold read_html_from_archive. rewrite Hzf. simpl.
  assert (Hnames : Forall (λ n, n ∈ zf.*1) (map fst zf)).
  { apply Forall_forall. intros n Hn. exact Hn. }
  revert Hnames. generalize (@nil (string * bytes)). generalize (map fst zf).
  intros names. induction names as [|n names IH]; intros acc Hnames; simpl.
  - by exists acc.
  - inv Hnames. destruct (zf_read_Ok zf n) as [data ->]; [done|]. simpl.
    by apply IH.
Qed.

Lemma read_html_from_archive_distinct path zf :
  ZipFile path = Ok zf → NoDup zf.*1 → read_html_from_archive' path = Ok zf.
Proof.
  intros Hzf Hnd. unfold read_html_from_archive. rewrite Hzf. simpl.
  by apply read_loop_distinct.
Qed.

Lemma get_html_dict_total path zf :
  ZipFile path = Ok zf → ∃ html_dict, get_html_dict' path = Ok html_dict.
Proof.
  intros Hzf. destruct (read_html_from_archive_total path zf Hzf) as [raw Hraw].
  unfold get_html_dict. rewrite Hraw. simpl. rewrite parse_html_spec. eauto.
Qed.

Lemma get_html_dict_Raise path e :
  get_html_dict' path = Raise e → ZipFile path = Raise e.
Proof.
  destruct (ZipFile path) as [zf|e'] eqn:Hzf.
  - destruct (get_html_dict_total path zf Hzf) as [d ->]. done.
  - unfold get_html_dict, read_html_from_archive. rewrite Hzf. simpl. congruence.
Qed.

Lemma main_unfold dir :
  main' dir
  = let* sorted_paths := generate_sorted_paths_to_archives' dir in
    let* html_dicts := collect get_html_dict' sorted_paths in
    Ok (duplicate_scan (zip sorted_paths html_dicts)).
Proof.
  unfold main. destruct (generate_sorted_paths_to_archives' dir); simpl; [|done].
  by rewrite Pool_map_collect.
Qed.

(** C3: an entry whose name does not begin with three capital letters, or
    whose document has no table, is skipped: the result is the one of the
    archive without that entry, a line is printed for it, and [parse_html]
    returns a dictionary whatever the entries are.  The dictionary holds a
    code exactly when some entry of that code parsed, and the table under
    it is the table of such an entry.  [ABC_2021.html] gives the code
    [ABC]; [abc_2021.html] gives none and is skipped. *)
Theorem parse_html_skips_failed_entries :
  (∀ html_dict, ∃ contents, parse_html' html_dict = Ok contents)
  ∧ (∀ before key value after,
        re.match_ key = None ∨ bs4.find "table" (BeautifulSoup value) = None →
        parse_html' (before ++ (key, value) :: after) = parse_html' (before ++ after)
        ∧ ∃ printed_before printed_after,
            parse_html_printed' before = Ok printed_before
            ∧ parse_html_printed' after = Ok printed_after
            ∧ parse_html_printed' (before ++ (key, value) :: after)
              = Ok (printed_before ++ [key +:+ " error"] ++ printed_after))
  ∧ (∀ html_dict contents code t,
        parse_html' html_dict = Ok contents →
        contents !! code = Some t →
        ∃ key value m table,
          (key, value) ∈ html_dict ∧ re.match_ key = Some m ∧ re.group1 m = code
          ∧ bs4.find "table" (BeautifulSoup value) = Some table
          ∧ _parse_table table = t)
  ∧ (∀ html_dict contents key value m table,
        parse_html' html_dict = Ok contents →
        (key, value) ∈ html_dict → re.match_ key = Some m →
        bs4.find "table" (BeautifulSoup value) = Some table →
        is_Some (contents !! re.group1 m))
  ∧ (∀ key,
        re.match_ key = None
        ↔ ¬ ∃ a b c rest,
              key = String a (String b (String c rest))
              ∧ Py.isupper_AZ a = true ∧ Py.isupper_AZ b = true
              ∧ Py.isupper_AZ c = true)
  ∧ option_map re.group1 (re.match_ "ABC_2021.html") = Some "ABC"
  ∧ re.match_ "abc_2021.html" = None
  ∧ (∀ value before after,
        parse_html' (before ++ ("abc_2021.html", value) :: after)
        = parse_html' (before ++ after)).
Proof.
  assert (Hskip : ∀ before key value after,
             parsed_entry' key value = None →
             parse_html' (before ++ (key, value) :: after)
             = parse_html' (before ++ after)).
  { intros before key value after Hnone. rewrite !parse_html_spec, !fold_left_app.
    simpl. by rewrite (store_entry_failed _ _ _ Hnone). }
  split_and!.
  - intros html_dict. rewrite parse_html_spec. eauto.
  - intros before key value after Hfail%parsed_entry_None. split; [by apply Hskip|].
    exists (concat (diagnostic' <$> before)), (concat (diagnostic' <$> after)).
    rewrite !parse_html_printed_spec. split_and!; [done..|].
    rewrite fmap_app, concat_app. cbn [fmap list_fmap concat].
    unfold diagnostic at 2. simpl. by rewrite Hfail.
  - intros html_dict contents code t. rewrite parse_html_spec. intros [= <-] Hc.
    apply fold_store_origin in Hc as [Hc|(key & value & Hin & Hp)]; [done|].
    apply parsed_entry_Some in Hp as (m & table & ?). exists key, value, m, table.
    naive_solver.
  - intros html_dict contents key value m table. rewrite parse_html_spec.
    intros [= <-] Hin Hm Ht.
    apply (fold_store_present _ _ key value _ (_parse_table table)); [done|].
    apply parsed_entry_Some. by exists m, table.
  - intros key. unfold re.match_. split.
    + intros Hnone (a & b & c & rest & -> & Ha & Hb & Hc).
      by rewrite Ha, Hb, Hc in Hnone.
    + intros Hno. destruct key as [|a [|b [|c rest]]]; try done.
      destruct (Py.isupper_AZ a) eqn:Ha, (Py.isupper_AZ b) eqn:Hb,
        (Py.isupper_AZ c) eqn:Hc; try done.
      destruct Hno. by exists a, b, c, rest.
  - reflexivity.
  - reflexivity.
  - intros value before after. apply Hskip. apply parsed_entry_None. by left.
Qed.

(** C7: when two entries of the mapping handed to [parse_html] give the
    same company code, the dictionary maps the code to the table of the
    later one, the last entry of that code that parsed; nothing is printed
    for the entry that is overwritten, and the dictionary has each key
    once.  For an archive whose member names are distinct the entries reach
    [parse_html] in the listing order of the container, so that the code is
    mapped to the table of the last such entry of the listing.  (A member
    name that the container lists twice keeps its first place in the
    mapping, so the order is then another.) *)
Theorem parse_html_last_entry_wins l1 k1 v1 l2 k2 v2 l3 code t1 t2 :
  parsed_entry' k1 v1 = Some (code, t1) →
  parsed_entry' k2 v2 = Some (code, t2) →
  (∀ k v t, (k, v) ∈ l3 → parsed_entry' k v ≠ Some (code, t)) →
  (∃ contents,
      parse_html' (l1 ++ (k1, v1) :: l2 ++ (k2, v2) :: l3) = Ok contents
      ∧ contents !! code = Some t2
      ∧ NoDup (map_to_list contents).*1
      ∧ parse_html_printed' (l1 ++ (k1, v1) :: l2 ++ (k2, v2) :: l3)
        = parse_html_printed' (l1 ++ l2 ++ l3))
  ∧ (∀ path,
        ZipFile path = Ok (l1 ++ (k1, v1) :: l2 ++ (k2, v2) :: l3) →
        NoDup (l1 ++ (k1, v1) :: l2 ++ (k2, v2) :: l3).*1 →
        ∃ contents, get_html_dict' path = Ok contents
                    ∧ contents !! code = Some t2).
Proof.
  intros H1 H2 Hlast.
  assert (Hcode : fold_left store_entry' (l1 ++ (k1, v1) :: l2 ++ (k2, v2) :: l3) ∅
                  !! code = Some t2).
  { rewrite fold_left_app. cbn [fold_left]. rewrite fold_left_app. cbn [fold_left].
    rewrite fold_store_other by done.
    rewrite (store_entry_parsed _ _ _ _ _ H2). apply lookup_insert_eq. }
  split.
  - eexists. split; [apply parse_html_spec|]. split_and!; [done| |].
    + apply NoDup_fst_map_to_list.
    + rewrite !parse_html_printed_spec. f_equal.
      rewrite !fmap_app, !fmap_cons, !fmap_app, !fmap_cons, !concat_app.
      cbn [concat]. rewrite !concat_app. cbn [concat].
      unfold diagnostic at 2 4. simpl. by rewrite H1, H2.
  - intros path Hzf Hnd. eexists. unfold get_html_dict.
    rewrite (read_html_from_archive_distinct path _ Hzf Hnd). simpl.
    split; [apply parse_html_spec|done].
Qed.

(** C9: an archive all of whose entries fail parses to the empty
    dictionary; of two such archives that follow one another the second is
    reported, whatever their bytes. *)
Theorem empty_snapshots_are_duplicates raw1 raw2 :
  Forall (λ item, re.match_ item.1 = None
                  ∨ bs4.find "table" (BeautifulSoup item.2) = None) raw1 →
  Forall (λ item, re.match_ item.1 = None
                  ∨ bs4.find "table" (BeautifulSoup item.2) = None) raw2 →
  parse_html' raw1 = Ok ∅
  ∧ parse_html' raw2 = Ok ∅
  ∧ (∀ path1 path2, duplicate_scan [(path1, ∅); (path2, ∅)] = [path2])
  ∧ (∀ before path1 path2 after,
        path2 ∈ duplicate_scan (before ++ (path1, ∅) :: (path2, ∅) :: after))
  ∧ (∀ dir path1 path2,
        generate_sorted_paths_to_archives' dir = Ok [path1; path2] →
        read_html_from_archive' path1 = Ok raw1 →
        read_html_from_archive' path2 = Ok raw2 →
        main' dir = Ok [path2]).
Proof.
  assert (Hempty : ∀ raw,
             Forall (λ item, re.match_ item.1 = None
                             ∨ bs4.find "table" (BeautifulSoup item.2) = None) raw →
             parse_html' raw = Ok ∅).
  { intros raw Hraw. rewrite parse_html_spec. f_equal.
    induction Hraw as [|[k v] raw Hfail%parsed_entry_None _ IH]; [done|].
    simpl. by rewrite (store_entry_failed _ _ _ Hfail). }
  intros Hraw1 Hraw2. split_and!; [by apply Hempty..| | |].
  - intros path1 path2. unfold duplicate_scan. simpl.
    by repeat case_decide.
  - intros before path1 path2 after. unfold duplicate_scan.
    rewrite fold_left_app.
    destruct (fold_left scan_step before ([], None)) as [acc previous].
    rewrite fold_scan_step. cbn [flagged_after]. rewrite (decide_True (P := Some ∅ = Some ∅)) by done.
    rewrite !elem_of_app. right. right. left. by left.
  - intros dir path1 path2 Hgen Hr1 Hr2. rewrite main_unfold, Hgen. simpl.
    unfold get_html_dict. rewrite Hr1, Hr2. simpl.
    rewrite (Hempty raw1 Hraw1), (Hempty raw2 Hraw2). simpl.
    unfold duplicate_scan. simpl.
    by repeat case_decide.
Qed.

(** C10: the company code of an entry is the first three characters of
    its name when they are capital letters, whatever follows them.
    [ABCD2021.html] and [ABC_2021.html] both give [ABC]; in one archive
    they share the key and the later of the two is the one kept. *)
Theorem company_code_is_prefix :
  (∀ a b c rest,
      Py.isupper_AZ a = true → Py.isupper_AZ b = true → Py.isupper_AZ c = true →
      option_map re.group1 (re.match_ (String a (String b (String c rest))))
      = Some (String a (String b (String c EmptyString))))
  ∧ option_map re.group1 (re.match_ "ABCD2021.html") = Some "ABC"
  ∧ option_map re.group1 (re.match_ "ABC_2021.html") = Some "ABC"
  ∧ (∀ v1 v2 table1 table2,
        bs4.find "table" (BeautifulSoup v1) = Some table1 →
        bs4.find "table" (BeautifulSoup v2) = Some table2 →
        parse_html' [("ABC_2021.html", v1); ("ABCD2021.html", v2)]
        = Ok {[ "ABC" := _parse_table table2 ]}
        ∧ parse_html' [("ABCD2021.html", v2); ("ABC_2021.html", v1)]
          = Ok {[ "ABC" := _parse_table table1 ]}).
Proof.
  split_and!.
  - intros a b c rest Ha Hb Hc. simpl. by rewrite Ha, Hb, Hc.
  - reflexivity.
  - reflexivity.
  - intros v1 v2 table1 table2 H1 H2.
    assert (P1 : parsed_entry' "ABC_2021.html" v1 = Some ("ABC", _parse_table table1)).
    { apply parsed_entry_Some. by exists ("ABC", "_2021.html"), table1. }
    assert (P2 : parsed_entry' "ABCD2021.html" v2 = Some ("ABC", _parse_table table2)).
    { apply parsed_entry_Some. by exists ("ABC", "D2021.html"), table2. }
    rewrite !parse_html_spec. cbn [fold_left].
    rewrite !(store_entry_parsed _ _ _ _ _ P1), !(store_entry_parsed _ _ _ _ _ P2).
    rewrite ?(store_entry_parsed _ _ _ _ _ P1).
    split; f_equal; apply insert_insert_eq.
Qed.

(** C4: the error of a missing or corrupt archive leaves
    [read_html_from_archive] and [get_html_dict] as it is, leaves the map
    over the pool, and ends [main] without a report.  An archive that can
    be read always gives a dictionary: the error that ends the run is the
    error of an archive. *)
Theorem archive_error_aborts_run path e :
  ZipFile path = Raise e →
  read_html_from_archive' path = Raise e
  ∧ get_html_dict' path = Raise e
  ∧ (∀ paths, path ∈ paths →
              ∃ e' path', Pool_map get_html_dict' paths = Raise e'
                          ∧ path' ∈ paths ∧ ZipFile path' = Raise e')
  ∧ (∀ dir paths,
        generate_sorted_paths_to_archives' dir = Ok paths → path ∈ paths →
        ∃ e' path', main' dir = Raise e'
                    ∧ path' ∈ paths ∧ ZipFile path' = Raise e')
  ∧ (∀ path' zf, ZipFile path' = Ok zf →
                 ∃ html_dict, get_html_dict' path' = Ok html_dict).
Proof.
  intros Hzf.
  assert (Hread : read_html_from_archive' path = Raise e).
  { unfold read_html_from_archive. by rewrite Hzf. }
  assert (Hget : get_html_dict' path = Raise e).
  { unfold get_html_dict. by rewrite Hread. }
  assert (Hpool : ∀ paths, path ∈ paths →
             ∃ e' path', collect get_html_dict' paths = Raise e'
                         ∧ path' ∈ paths ∧ ZipFile path' = Raise e').
  { intros paths (pre & post & ->)%list_elem_of_split.
    destruct (collect_Raise get_html_dict' pre path post e Hget)
      as (e' & Hc & _ & path' & Hin & Hp').
    exists e', path'. split_and!; [done| |by apply get_html_dict_Raise].
    apply elem_of_app in Hin as [Hin|Hin%list_elem_of_singleton].
    - apply elem_of_app. by left.
    - subst. apply elem_of_app. right. by left. }
  split_and!; [done|done| | |].
  - intros paths Hin. rewrite Pool_map_collect. by apply Hpool.
  - intros dir paths Hgen Hin. rewrite main_unfold, Hgen. simpl.
    destruct (Hpool paths Hin) as (e' & path' & Hc & Hin' & Hp').
    exists e', path'. by rewrite Hc.
  - apply get_html_dict_total.
Qed.

(** C5: a file name whose slice [arch_name[8:-4]] [arrow.get] refuses,
    wherever the name stands in the listing, makes the sorter raise one of
    the errors of [arrow.get]; the error leaves
    [generate_sorted_paths_to_archives] and [main], so that no report is
    produced.  It is the error of the first refused name.  (A name that
    departs from the naming convention outside that slice, or by what
    [arrow.get] tolerates around the time stamp, is not refused.) *)
Theorem bad_filename_aborts_run dir pre bad post e :
  os_listdir dir = Ok (pre ++ bad :: post) →
  Arrow.get (Py.slice 8 4 bad) = Raise e →
  ∃ e', is_arrow_error e'
        ∧ _sort_filenames_by_date (pre ++ bad :: post) = Raise e'
        ∧ generate_sorted_paths_to_archives' dir = Raise e'
        ∧ main' dir = Raise e'
        ∧ (Forall (λ n, is_Some (timestamp_of n)) pre → e' = e).
Proof.
  intros Hdir Hbad.
  destruct (collect_Raise date_of pre bad post e Hbad)
    as (e' & Hc & Hfirst & n & _ & Hn).
  assert (Hsort : _sort_filenames_by_date (pre ++ bad :: post) = Raise e').
  { by rewrite sort_filenames_unfold, Hc. }
  assert (Hgen : generate_sorted_paths_to_archives' dir = Raise e').
  { unfold generate_sorted_paths_to_archives. by rewrite Hdir; simpl; rewrite Hsort. }
  exists e'. split_and!; [by eapply Arrow_get_raises|done|done| |].
  - by rewrite main_unfold, Hgen.
  - intros Hpre. apply Hfirst. eapply Forall_impl; [exact Hpre|].
    intros x [d Hd]. exists d. unfold timestamp_of in Hd. unfold date_of.
    destruct (Arrow.get (Py.slice 8 4 x)); by simplify_eq.
Qed.

End PipelineProperties.

(** ** The theorems on the sample environment *)

Lemma parse_html_last_entry_wins_witness :
  ∃ contents,
    get_html_dict Sample.BeautifulSoup Sample.ZipFile
      "data/archive_1_1_2021_9_5.zip" = Ok contents
    ∧ contents !! "ABC" = Some [[]; ["10"; "20"]].
Proof.
  refine (proj2 (parse_html_last_entry_wins Sample.BeautifulSoup Sample.ZipFile
                   [] "ABC_2021.html" Sample.html_30_40
                   [] "ABCD2021.html" Sample.html_10_20
                   [("XYZ.html", Sample.no_table)] "ABC"
                   [["30"; "40"]] [[]; ["10"; "20"]] _ _ _)
            "data/archive_1_1_2021_9_5.zip" _ _).
  - vm_compute. reflexivity.
  - vm_compute. reflexivity.
  - intros k v t Hin. apply list_elem_of_singleton in Hin.
    injection Hin as -> ->. vm_compute. discriminate.
  - vm_compute. reflexivity.
  - cbn [app fmap list_fmap fst]. repeat constructor.
    + intros Hin. repeat (apply elem_of_cons in Hin as [Hin|Hin]; [discriminate|]).
      by apply elem_of_nil in Hin.
    + intros Hin. repeat (apply elem_of_cons in Hin as [Hin|Hin]; [discriminate|]).
      by apply elem_of_nil in Hin.
    + intros Hin. by apply elem_of_nil in Hin.
Defined.

(** A container that lists a member name twice, with another entry of the
    same company code between the two: the entry last in the listing
    parses, and the dictionary has the table of the entry in the middle. *)
Lemma repeated_member_name_not_last :
  Sample3.ZipFile "repeat/archive_1_1_2021_9_5.zip"
  = Ok [("ABC_1.html", Sample.html_10_20); ("ABCD.html", Sample.html_30_40);
        ("ABC_1.html", Sample2.html_table_then_text)]
  ∧ parsed_entry Sample3.BeautifulSoup "ABCD.html" Sample.html_30_40
    = Some ("ABC", [["30"; "40"]])
  ∧ parsed_entry Sample3.BeautifulSoup "ABC_1.html" Sample2.html_table_then_text
    = Some ("ABC", [["1"]])
  ∧ get_html_dict Sample3.BeautifulSoup Sample3.ZipFile
      "repeat/archive_1_1_2021_9_5.zip"
    = Ok {[ "ABC" := [["30"; "40"]] ]}.
Proof. split_and!; vm_compute; reflexivity. Qed.

Lemma empty_snapshots_are_duplicates_witness :
  main Sample.BeautifulSoup Sample.ZipFile Sample.os_listdir Sample.os_path_join
    "void"
  = Ok ["void/archive_2_1_2021_10_30.zip"].
Proof.
  refine (proj2 (proj2 (proj2 (proj2
            (empty_snapshots_are_duplicates
               Sample.BeautifulSoup Sample.ZipFile Sample.os_listdir
               Sample.os_path_join
               [("abc_2021.html", Sample.html_10_20)]
               [("XYZ.html", Sample.no_table)] _ _))))
            "void" "void/archive_1_1_2021_9_5.zip"
            "void/archive_2_1_2021_10_30.zip" _ _ _).
  - constructor; [left; reflexivity | constructor].
  - constructor; [right; vm_compute; reflexivity | constructor].
  - vm_compute. reflexivity.
  - vm_compute. reflexivity.
  - vm_compute. reflexivity.
Defined.

Lemma archive_error_aborts_run_witness :
  ∃ e' path',
    main Sample.BeautifulSoup Sample.ZipFile Sample.os_listdir
      Sample.os_path_join "data" = Raise e'
    ∧ path' ∈ ["data/archive_31_12_2020_23_59.zip";
                "data/archive_1_1_2021_9_5.zip";
                "data/archive_2_1_2021_10_30.zip"]
    ∧ Sample.ZipFile path' = Raise e'.
Proof.
  refine (proj1 (proj2 (proj2 (proj2
            (archive_error_aborts_run
               Sample.BeautifulSoup Sample.ZipFile Sample.os_listdir
               Sample.os_path_join "data/archive_2_1_2021_10_30.zip"
               (OSError "data/archive_2_1_2021_10_30.zip") _))))
            "data" _ _ _).
  - vm_compute. reflexivity.
  - vm_compute. reflexivity.
  - right. right. left.
Defined.

Lemma bad_filename_aborts_run_witness :
  ∃ e', is_arrow_error e'
        ∧ _sort_filenames_by_date
            (["archive_2_1_2021_10_30.zip"] ++ "notes.txt"
               :: ["archive_1_1_2021_9_5.zip"]) = Raise e'
        ∧ generate_sorted_paths_to_archives Sample.os_listdir
            Sample.os_path_join "mixed" = Raise e'
        ∧ main Sample.BeautifulSoup Sample.ZipFile Sample.os_listdir
            Sample.os_path_join "mixed" = Raise e'
        ∧ (Forall (λ n, is_Some (timestamp_of n)) ["archive_2_1_2021_10_30.zip"] →
           e' = ParserError "").
Proof.
  apply (bad_filename_aborts_run Sample.BeautifulSoup Sample.ZipFile
           Sample.os_listdir Sample.os_path_join "mixed"
           ["archive_2_1_2021_10_30.zip"] "notes.txt"
           ["archive_1_1_2021_9_5.zip"] (ParserError "")).
  - vm_compute. reflexivity.
  - vm_compute. reflexivity.
Defined.

(** Two files that do not follow the naming convention, one by its first
    eight and last four characters, one by the mark of a copy before the
    suffix, beside the archive they are read as: [arrow.get] accepts the
    three names, the sorter rebuilds the same name from each, and the run
    ends with a report. *)
Lemma misnamed_files_do_not_abort :
  follows_naming_convention "archive_2_1_2021_10_30.zip" = true
  ∧ follows_naming_convention "backup__2_1_2021_10_30.bak" = false
  ∧ follows_naming_convention "archive_2_1_2021_10_30 (1).zip" = false
  ∧ Sample3.os_listdir "stray"
    = Ok ["archive_2_1_2021_10_30.zip"; "backup__2_1_2021_10_30.bak";
          "archive_2_1_2021_10_30 (1).zip"]
  ∧ _sort_filenames_by_date
      ["archive_2_1_2021_10_30.zip"; "backup__2_1_2021_10_30.bak";
       "archive_2_1_2021_10_30 (1).zip"]
    = Ok ["archive_2_1_2021_10_30.zip"; "archive_2_1_2021_10_30.zip";
          "archive_2_1_2021_10_30.zip"]
  ∧ main Sample3.BeautifulSoup Sample3.ZipFile Sample3.os_listdir
      Sample.os_path_join "stray"
    = Ok ["stray/archive_2_1_2021_10_30.zip"; "stray/archive_2_1_2021_10_30.zip"].
Proof. split_and!; vm_compute; reflexivity. Qed.

(** A container that repeats a member name: the name keeps its first
    place in the dictionary, with the bytes of the later member. *)
Example sample_read_repeated_name :
  read_html_from_archive
    (λ _, Ok [("ABC.html", Sample.html_10_20); ("XYZ.html", Sample.no_table);
              ("ABC.html", Sample.html_30_40)]) "any.zip"
  = Ok [("ABC.html", Sample.html_30_40); ("XYZ.html", Sample.no_table)].
Proof. reflexivity. Qed.

(** The run on [data] stops at the missing archive; an archive of [data]
    that can be read gives its dictionary, the later [ABC] entry kept. *)
Example sample_get_html_dict :
  get_html_dict Sample.BeautifulSoup Sample.ZipFile "data/archive_1_1_2021_9_5.zip"
  = Ok {[ "ABC" := [[]; ["10"; "20"]] ]}.
Proof. vm_compute. reflexivity. Qed.

Example sample_main_data :
  main Sample.BeautifulSoup Sample.ZipFile Sample.os_listdir Sample.os_path_join
    "data"
  = Raise (OSError "data/archive_2_1_2021_10_30.zip").
Proof. vm_compute. reflexivity. Qed.

(** * Further properties *)

(** ** The table parser, continued *)

(** X3: the rows of a table whose children are two lists put one after the
    other are the rows of the first followed by the rows of the second. *)
Theorem parse_table_append name children1 children2 :
  _parse_table (bs4.Tag name (children1 ++ children2))
  = _parse_table (bs4.Tag name children1) ++ _parse_table (bs4.Tag name children2).
Proof. rewrite !parse_table_rows, find_all_app. apply fmap_app. Qed.

(** X4: rows are found at any depth: a tag that is not a [tr] (a [tbody],
    say) around some of the children of a table changes nothing. *)
Theorem parse_table_wrapper name wrapper before inner after :
  wrapper ≠ "tr" →
  _parse_table (bs4.Tag name (before ++ bs4.Tag wrapper inner :: after))
  = _parse_table (bs4.Tag name (before ++ inner ++ after)).
Proof.
  intros Hw. rewrite !parse_table_rows. apply (f_equal (fmap row_of)).
  rewrite !find_all_app, find_all_cons. cbn [bs4.has_name].
  destruct (String.eqb_spec wrapper "tr") as [->|_]; [done|].
  unfold bs4.find_all. by rewrite (descendants_rename wrapper name inner).
Qed.

Lemma parse_table_wrapper_witness :
  _parse_table
    (bs4.Tag "table"
       ([] ++ bs4.Tag "tbody"
                [bs4.Tag "tr" [bs4.Tag "td" [bs4.NavigableString "1"]]] :: []))
  = _parse_table
      (bs4.Tag "table"
         ([] ++ [bs4.Tag "tr" [bs4.Tag "td" [bs4.NavigableString "1"]]] ++ [])).
Proof. apply (parse_table_wrapper "table" "tbody"). discriminate. Defined.

(** X5: no cell of a parsed table begins or ends with white space. *)
Theorem parse_table_cells_trimmed table row cell :
  row ∈ _parse_table table → cell ∈ row →
  starts_with_space cell = false ∧ ends_with_space cell = false.
Proof.
  rewrite parse_table_rows. intros (tr & -> & _)%list_elem_of_fmap.
  unfold row_of. intros (td & -> & _)%list_elem_of_fmap.
  destruct (strip_spec (bs4.text td)) as (l & r & _ & _ & _ & Hs & He). done.
Qed.

Lemma parse_table_cells_trimmed_witness :
  starts_with_space "10" = false ∧ ends_with_space "10" = false.
Proof.
  apply (parse_table_cells_trimmed
           (bs4.Tag "table" [bs4.Tag "tr" [bs4.Tag "td" [bs4.NavigableString " 10 "]]])
           ["10"] "10").
  - vm_compute. by left.
  - by left.
Defined.

(** X6: a row that lies below another row is a row of the table too, and
    each of its cells is also a cell of the row around it. *)
Theorem parse_table_nested_rows table tr tr' :
  tr ∈ bs4.find_all "tr" table → tr' ∈ bs4.find_all "tr" tr →
  row_of tr ∈ _parse_table table
  ∧ row_of tr' ∈ _parse_table table
  ∧ ∀ cell, cell ∈ row_of tr' → cell ∈ row_of tr.
Proof.
  intros Htr Htr'. rewrite parse_table_rows.
  apply elem_of_find_all in Htr as Htr1. destruct Htr1 as [Hd Hn].
  apply elem_of_find_all in Htr' as [Hd' Hn'].
  split_and!.
  - apply list_elem_of_fmap. by exists tr.
  - apply list_elem_of_fmap. exists tr'. split; [done|].
    apply elem_of_find_all. split; [|done]. by apply (descendants_trans table tr).
  - unfold row_of. intros cell (td & -> & Htd)%list_elem_of_fmap.
    apply list_elem_of_fmap. exists td. split; [done|].
    apply elem_of_find_all in Htd as [Htd Hname].
    apply elem_of_find_all. split; [|done]. by apply (descendants_trans tr tr').
Qed.

Lemma parse_table_nested_rows_witness :
  row_of (bs4.Tag "tr"
            [bs4.Tag "td"
               [bs4.Tag "table"
                  [bs4.Tag "tr" [bs4.Tag "td" [bs4.NavigableString "x"]]]]])
  ∈ [["x"; "x"]; ["x"]]
  ∧ row_of (bs4.Tag "tr" [bs4.Tag "td" [bs4.NavigableString "x"]])
    ∈ [["x"; "x"]; ["x"]]
  ∧ ∀ cell,
      cell ∈ row_of (bs4.Tag "tr" [bs4.Tag "td" [bs4.NavigableString "x"]]) →
      cell ∈ row_of (bs4.Tag "tr"
                       [bs4.Tag "td"
                          [bs4.Tag "table"
                             [bs4.Tag "tr"
                                [bs4.Tag "td" [bs4.NavigableString "x"]]]]]).
Proof.
  apply (parse_table_nested_rows
           (bs4.Tag "table"
              [bs4.Tag "tr"
                 [bs4.Tag "td"
                    [bs4.Tag "table"
                       [bs4.Tag "tr"
                          [bs4.Tag "td" [bs4.NavigableString "x"]]]]]])).
  - vm_compute. by left.
  - vm_compute. by left.
Defined.

(** ** [parse_html], continued *)

Section ParseHtmlProperties.

Context (BeautifulSoup : bytes → bs4.PageElement).

Local Abbreviation parse_html' := (parse_html BeautifulSoup).
Local Abbreviation parse_html_printed' := (parse_html_printed BeautifulSoup).
Local Abbreviation parsed_entry' := (parsed_entry BeautifulSoup).
Local Abbreviation store_entry' := (store_entry BeautifulSoup).
Local Abbreviation diagnostic' := (diagnostic BeautifulSoup).

Lemma parsed_entry_fails key value :
  parsed_entry' key value = None
  ↔ re.match_ key = None ∨ bs4.find "table" (BeautifulSoup value) = None.
Proof.
  unfold parsed_entry.
  destruct (re.match_ key), (bs4.find "table" (BeautifulSoup value));
    split; try done; try (by left); try (by right); by intros [|].
Qed.

Lemma parsed_entry_parses key value code t :
  parsed_entry' key value = Some (code, t)
  ↔ ∃ m table, re.match_ key = Some m ∧ re.group1 m = code
               ∧ bs4.find "table" (BeautifulSoup value) = Some table
               ∧ _parse_table table = t.
Proof.
  unfold parsed_entry.
  destruct (re.match_ key) as [m|], (bs4.find "table" (BeautifulSoup value)) as [table|];
    split; try done; try (by intros (? & ? & ? & ? & ? & ?)).
  - intros [= <- <-]. by exists m, table.
  - intros (m' & table' & [= <-] & <- & [= <-] & <-). done.
Qed.

Lemma store_entry_union contents other item :
  store_entry' (contents ∪ other) item = store_entry' contents item ∪ other.
Proof.
  unfold store_entry. destruct (parsed_entry' item.1 item.2) as [[code t]|]; [|done].
  apply insert_union_l.
Qed.

Lemma fold_store_union html_dict contents :
  fold_left store_entry' html_dict contents
  = fold_left store_entry' html_dict ∅ ∪ contents.
Proof.
  induction html_dict as [|item d IH] using rev_ind.
  - simpl. by rewrite (left_id_L ∅ (∪)).
  - rewrite !fold_left_app. simpl. by rewrite IH, store_entry_union.
Qed.

(** X7: the dictionary of two lists of entries put one after the other is
    the union of their dictionaries in which the second list wins; so more
    entries never take a code away. *)
Theorem parse_html_append html_dict1 html_dict2 :
  ∃ contents1 contents2,
    parse_html BeautifulSoup html_dict1 = Ok contents1
    ∧ parse_html BeautifulSoup html_dict2 = Ok contents2
    ∧ parse_html BeautifulSoup (html_dict1 ++ html_dict2)
      = Ok (contents2 ∪ contents1)
    ∧ dom contents1 ⊆ dom (contents2 ∪ contents1).
Proof.
  eexists _, _. rewrite !(parse_html_spec BeautifulSoup). split_and!; [done|done| |].
  - by rewrite fold_left_app, fold_store_union.
  - rewrite dom_union. set_solver.
Qed.

Lemma fold_store_lookup_distinct html_dict code t :
  NoDup (omap (λ item, fst <$> parsed_entry' item.1 item.2) html_dict) →
  fold_left store_entry' html_dict ∅ !! code = Some t
  ↔ ∃ key value, (key, value) ∈ html_dict ∧ parsed_entry' key value = Some (code, t).
Proof.
  intros Hnd. split.
  - intros [H|H]%(fold_store_origin BeautifulSoup); [done|exact H].
  - intros (key & value & Hin & Hp).
    apply list_elem_of_split in Hin as (l1 & l2 & ->).
    rewrite fold_left_app. simpl.
    rewrite (fold_store_other BeautifulSoup).
    + rewrite (store_entry_parsed BeautifulSoup _ _ _ _ _ Hp). apply lookup_insert_eq.
    + intros k v t' Hin' Hp'.
      rewrite omap_app in Hnd. apply NoDup_app in Hnd as (_ & _ & Hnd).
      change (omap ?f (?x :: ?l))
        with (match f x with Some y => y :: omap f l | None => omap f l end) in Hnd.
      simpl in Hnd. rewrite Hp in Hnd. simpl in Hnd.
      apply NoDup_cons in Hnd as [Hnotin _]. apply Hnotin.
      apply list_elem_of_omap. exists (k, v). split; [done|]. simpl. by rewrite Hp'.
Qed.

(** X8: when the entries that parse have pairwise distinct company codes,
    the dictionary does not depend on the order of the entries. *)
Theorem parse_html_permutation html_dict1 html_dict2 :
  html_dict1 ≡ₚ html_dict2 →
  NoDup (omap (λ item, fst <$> parsed_entry BeautifulSoup item.1 item.2) html_dict1) →
  parse_html BeautifulSoup html_dict1 = parse_html BeautifulSoup html_dict2.
Proof.
  intros Hp Hnd1.
  assert (Hnd2 : NoDup (omap (λ item, fst <$> parsed_entry' item.1 item.2) html_dict2)).
  { by rewrite <- Hp. }
  rewrite !(parse_html_spec BeautifulSoup). f_equal. apply map_eq. intros code.
  apply option_eq. intros t.
  rewrite !fold_store_lookup_distinct by done.
  by setoid_rewrite Hp.
Qed.

(** X9: the lines printed by [parse_html] are, in the order of the entries,
    the names of the entries that failed, each followed by [ error]; the
    entries that parse print nothing. *)
Theorem parse_html_printed_lines html_dict :
  parse_html_printed' html_dict
  = Ok ((λ item, item.1 +:+ " error")
          <$> filter (λ item, re.match_ item.1 = None
                              ∨ bs4.find "table" (BeautifulSoup item.2) = None)
                html_dict).
Proof.
  rewrite (parse_html_printed_spec BeautifulSoup). f_equal.
  induction html_dict as [|[key value] d IH]; [done|].
  cbn [fmap list_fmap concat]. rewrite IH. unfold diagnostic at 1. simpl.
  destruct (parsed_entry' key value) as [[code t]|] eqn:Hp.
  - rewrite filter_cons_False; [done|].
    simpl. intros Hfail%parsed_entry_fails. congruence.
  - rewrite filter_cons_True; [done|]. by apply parsed_entry_fails.
Qed.

Lemma fold_store_size html_dict contents :
  (size (fold_left store_entry' html_dict contents)
   ≤ size contents + length html_dict)%nat.
Proof.
  revert contents. induction html_dict as [|item d IH]; intros contents; simpl; [lia|].
  etrans; [apply IH|]. unfold store_entry.
  destruct (parsed_entry' item.1 item.2) as [[code t]|]; [|lia].
  destruct (contents !! code) eqn:E.
  - rewrite map_size_insert_Some by eauto. lia.
  - rewrite map_size_insert_None by done. lia.
Qed.

(** X10: the dictionary has at most as many keys as the archive has entries,
    and each key is made of three capital letters. *)
Theorem parse_html_keys html_dict :
  ∃ contents,
    parse_html' html_dict = Ok contents
    ∧ (size contents ≤ length html_dict)%nat
    ∧ ∀ code, code ∈ dom contents →
              ∃ a b c, code = String a (String b (String c EmptyString))
                       ∧ Py.isupper_AZ a = true ∧ Py.isupper_AZ b = true
                       ∧ Py.isupper_AZ c = true.
Proof.
  eexists. split; [apply parse_html_spec|]. split.
  - etrans; [apply fold_store_size|]. by rewrite map_size_empty.
  - intros code [t Ht]%elem_of_dom.
    apply (fold_store_origin BeautifulSoup) in Ht as [Ht|(key & value & _ & Hp)]; [done|].
    apply parsed_entry_parses in Hp as (m & table & Hm & <- & _).
    unfold re.match_ in Hm. destruct key as [|a [|b [|c rest]]]; try done.
    destruct (Py.isupper_AZ a) eqn:Ha, (Py.isupper_AZ b) eqn:Hb,
      (Py.isupper_AZ c) eqn:Hc; try done.
    simpl in Hm. injection Hm as <-. by exists a, b, c.
Qed.

Lemma find_first_table e before table after :
  bs4.descendants e = before ++ table :: after →
  bs4.has_name "table" table = true →
  Forall (λ x, bs4.has_name "table" x = false) before →
  bs4.find "table" e = Some table.
Proof.
  intros He Htable Hbefore. unfold bs4.find, bs4.find_all.
  rewrite He, List.filter_app, (List_filter_none _ before Hbefore).
  cbn [List.filter app]. by rewrite Htable.
Qed.

(** X11: only the first table of a document is read, at whatever depth it
    stands (below [html] and [body], say): two documents whose first
    [table] tag in document order is the same table give the same
    dictionary, whatever stands before and after that table. *)
Theorem parse_html_first_table_only key value1 value2
    before1 before2 table after1 after2 entries_before entries_after :
  bs4.descendants (BeautifulSoup value1) = before1 ++ table :: after1 →
  bs4.descendants (BeautifulSoup value2) = before2 ++ table :: after2 →
  bs4.has_name "table" table = true →
  Forall (λ x, bs4.has_name "table" x = false) before1 →
  Forall (λ x, bs4.has_name "table" x = false) before2 →
  parse_html' (entries_before ++ (key, value1) :: entries_after)
  = parse_html' (entries_before ++ (key, value2) :: entries_after).
Proof.
  intros H1 H2 Htable Hb1 Hb2.
  rewrite !(parse_html_spec BeautifulSoup), !fold_left_app.
  cbn [fold_left]. do 2 f_equal. unfold store_entry, parsed_entry. simpl.
  by rewrite (find_first_table _ _ _ _ H1 Htable Hb1),
    (find_first_table _ _ _ _ H2 Htable Hb2).
Qed.

(** X12: a table without rows is not a failure: the entry is stored with the
    empty table and nothing is printed for it. *)
Theorem parse_html_empty_table key value m table :
  re.match_ key = Some m →
  bs4.find "table" (BeautifulSoup value) = Some table →
  bs4.find_all "tr" table = [] →
  parse_html' [(key, value)] = Ok {[ re.group1 m := [] ]}
  ∧ parse_html_printed' [(key, value)] = Ok [].
Proof.
  intros Hm Ht Hrows.
  assert (Hp : parsed_entry' key value = Some (re.group1 m, [])).
  { apply parsed_entry_parses. exists m, table. split_and!; [done..|].
    by rewrite parse_table_rows, Hrows. }
  rewrite (parse_html_spec BeautifulSoup), (parse_html_printed_spec BeautifulSoup).
  cbn [fold_left fmap list_fmap concat]. unfold diagnostic. simpl.
  by rewrite (store_entry_parsed BeautifulSoup _ _ _ _ _ Hp), Hp.
Qed.

End ParseHtmlProperties.

Lemma parse_html_permutation_witness :
  parse_html Sample.BeautifulSoup
    [("ABC_2021.html", Sample.html_30_40); ("XYZ_2021.html", Sample.html_10_20)]
  = parse_html Sample.BeautifulSoup
      [("XYZ_2021.html", Sample.html_10_20); ("ABC_2021.html", Sample.html_30_40)].
Proof.
  apply parse_html_permutation.
  - apply perm_swap.
  - change (NoDup ["ABC"; "XYZ"]). repeat constructor.
    + intros Hin. apply list_elem_of_singleton in Hin. discriminate.
    + intros Hin. by apply elem_of_nil in Hin.
Defined.

Lemma parse_html_first_table_only_witness :
  parse_html Sample3.BeautifulSoup
    ([] ++ ("ABC_2021.html", Sample3.html_page_two_tables) :: [])
  = parse_html Sample3.BeautifulSoup
      ([] ++ ("ABC_2021.html", Sample3.html_page_table_in_div) :: []).
Proof.
  apply (parse_html_first_table_only Sample3.BeautifulSoup
           "ABC_2021.html" Sample3.html_page_two_tables
           Sample3.html_page_table_in_div
           [bs4.Tag "html"
              [bs4.Tag "body"
                 [bs4.Tag "p" [bs4.NavigableString "a"];
                  bs4.Tag "table" [bs4.Tag "tr" [bs4.Tag "td" [bs4.NavigableString "1"]]];
                  bs4.Tag "table" [bs4.Tag "tr" [bs4.Tag "td" [bs4.NavigableString "2"]]]]];
            bs4.Tag "body"
              [bs4.Tag "p" [bs4.NavigableString "a"];
               bs4.Tag "table" [bs4.Tag "tr" [bs4.Tag "td" [bs4.NavigableString "1"]]];
               bs4.Tag "table" [bs4.Tag "tr" [bs4.Tag "td" [bs4.NavigableString "2"]]]];
            bs4.Tag "p" [bs4.NavigableString "a"];
            bs4.NavigableString "a"]
           [bs4.Tag "html"
              [bs4.Tag "body"
                 [bs4.Tag "div"
                    [bs4.Tag "table"
                       [bs4.Tag "tr" [bs4.Tag "td" [bs4.NavigableString "1"]]]];
                  bs4.NavigableString "z"]];
            bs4.Tag "body"
              [bs4.Tag "div"
                 [bs4.Tag "table"
                    [bs4.Tag "tr" [bs4.Tag "td" [bs4.NavigableString "1"]]]];
               bs4.NavigableString "z"];
            bs4.Tag "div"
              [bs4.Tag "table"
                 [bs4.Tag "tr" [bs4.Tag "td" [bs4.NavigableString "1"]]]]]
           (bs4.Tag "table" [bs4.Tag "tr" [bs4.Tag "td" [bs4.NavigableString "1"]]])
           [bs4.Tag "tr" [bs4.Tag "td" [bs4.NavigableString "1"]];
            bs4.Tag "td" [bs4.NavigableString "1"];
            bs4.NavigableString "1";
            bs4.Tag "table" [bs4.Tag "tr" [bs4.Tag "td" [bs4.NavigableString "2"]]];
            bs4.Tag "tr" [bs4.Tag "td" [bs4.NavigableString "2"]];
            bs4.Tag "td" [bs4.NavigableString "2"];
            bs4.NavigableString "2"]
           [bs4.Tag "tr" [bs4.Tag "td" [bs4.NavigableString "1"]];
            bs4.Tag "td" [bs4.NavigableString "1"];
            bs4.NavigableString "1";
            bs4.NavigableString "z"]).
  - vm_compute. reflexivity.
  - vm_compute. reflexivity.
  - reflexivity.
  - repeat constructor.
  - repeat constructor.
Defined.

Lemma parse_html_empty_table_witness :
  parse_html Sample2.BeautifulSoup [("ABC_2021.html", Sample2.html_empty_table)]
  = Ok {[ "ABC" := [] ]}
  ∧ parse_html_printed Sample2.BeautifulSoup
      [("ABC_2021.html", Sample2.html_empty_table)] = Ok [].
Proof.
  apply (parse_html_empty_table Sample2.BeautifulSoup "ABC_2021.html"
           Sample2.html_empty_table ("ABC", "_2021.html") (bs4.Tag "table" [])).
  - reflexivity.
  - vm_compute. reflexivity.
  - reflexivity.
Defined.

(** ** The sorter, continued *)

Lemma next_day_valid a b :
  Arrow.valid a = true → Arrow.next_day a = Ok b → Arrow.valid b = true.
Proof.
  unfold Arrow.valid, Arrow.next_day. rewrite !andb_true_iff, !Z.leb_le.
  intros Hv Hb.
  pose proof (days_in_month_ge_28 (Arrow.year a) (Arrow.month a + 1)).
  pose proof (days_in_month_ge_28 (Arrow.year a + 1) 1).
  repeat case_match; simplify_eq; simpl;
    rewrite ?Z.ltb_lt, ?Z.ltb_ge in *; lia.
Qed.

Lemma build_datetime_valid text y m d H M a :
  Arrow.build_datetime text y m d H M = Ok a → Arrow.valid a = true.
Proof.
  unfold Arrow.build_datetime. intros Ha.
  repeat case_match; simplify_eq; [by eapply next_day_valid|done].
Qed.

Lemma timestamp_of_valid n a : timestamp_of n = Some a → Arrow.valid a = true.
Proof.
  unfold timestamp_of, Arrow.get. intros H.
  repeat case_match; simplify_eq; by eapply build_datetime_valid.
Qed.

Lemma timestamp_of_date_of n a : timestamp_of n = Some a ↔ date_of n = Ok a.
Proof.
  unfold timestamp_of, date_of.
  destruct (Arrow.get (Py.slice 8 4 n)); split; by intros [= ->].
Qed.

Lemma sorted_idempotent ds : sorted (sorted ds) = sorted ds.
Proof. apply sorted_permutation. unfold sorted. apply merge_sort_Permutation. Qed.

Lemma omap_timestamp_recovered ds :
  Forall (λ d, timestamp_of (recovered_arch_name d) = Some d) ds →
  omap timestamp_of (recovered_arch_name <$> ds) = ds.
Proof.
  induction 1 as [|d ds Hd _ IH]; [done|].
  cbn [fmap list_fmap].
  change (omap ?f (?x :: ?l))
    with (match f x with Some y => y :: omap f l | None => omap f l end).
  by rewrite Hd, IH.
Qed.

Lemma sort_filenames_Ok_inv names out :
  _sort_filenames_by_date names = Ok out →
  Forall (λ n, is_Some (timestamp_of n)) names
  ∧ out = recovered_arch_name <$> sorted (omap timestamp_of names).
Proof.
  rewrite sort_filenames_unfold.
  destruct (collect date_of names) as [ds|] eqn:Hc; simpl; [|done].
  intros [= <-]. apply collect_Ok_inv in Hc.
  assert (Hacc : Forall (λ n, is_Some (timestamp_of n)) names).
  { induction Hc as [|n d names ds Hn _ IH]; constructor; [|done].
    exists d. by apply timestamp_of_date_of. }
  split; [done|]. pose proof (date_objects_of_omap names Hacc) as Hc'.
  apply Forall2_length in Hc as Hlen.
  assert (ds = omap timestamp_of names) as ->; [|done].
  clear Hacc Hc' Hlen. induction Hc as [|n d names ds Hn _ IH]; [done|].
  change (omap ?f (?x :: ?l))
    with (match f x with Some y => y :: omap f l | None => omap f l end).
  apply timestamp_of_date_of in Hn. by rewrite Hn, IH.
Qed.

Lemma omap_timestamp_length names :
  Forall (λ n, is_Some (timestamp_of n)) names →
  length (omap timestamp_of names) = length names.
Proof.
  induction 1 as [|n names [d Hd] _ IH]; [done|].
  change (omap ?f (?x :: ?l))
    with (match f x with Some y => y :: omap f l | None => omap f l end).
  rewrite Hd. simpl. by rewrite IH.
Qed.

(** X13: for a listing whose names are all accepted, the sorter returns one
    rebuilt name for each listed name: the names written by the format
    string for the timestamps of the listing, which all are dates that
    exist, in ascending order. *)
Theorem sort_filenames_rebuilds names :
  Forall (λ n, is_Some (timestamp_of n)) names →
  ∃ ds, _sort_filenames_by_date names = Ok (recovered_arch_name <$> ds)
        ∧ ds ≡ₚ omap timestamp_of names
        ∧ StronglySorted Arrow.le ds
        ∧ length ds = length names
        ∧ Forall (λ d, Arrow.valid d = true) ds.
Proof.
  intros Hacc. exists (sorted (omap timestamp_of names)).
  rewrite sort_filenames_unfold, (date_objects_of_omap names Hacc). simpl.
  assert (Hperm : sorted (omap timestamp_of names) ≡ₚ omap timestamp_of names).
  { unfold sorted. apply merge_sort_Permutation. }
  split_and!; [done|done| | |].
  - apply StronglySorted_merge_sort; apply _.
  - by rewrite Hperm, omap_timestamp_length.
  - rewrite Hperm. apply Forall_forall. intros d (n & _ & Hn)%list_elem_of_omap.
    by apply (timestamp_of_valid n).
Qed.

Lemma sort_filenames_rebuilds_witness :
  ∃ ds, _sort_filenames_by_date
          ["archive_02_01_2021_10_30.zip"; "archive_1_1_2021_9_5.zip"]
        = Ok (recovered_arch_name <$> ds)
        ∧ ds ≡ₚ omap timestamp_of
                  ["archive_02_01_2021_10_30.zip"; "archive_1_1_2021_9_5.zip"]
        ∧ StronglySorted Arrow.le ds
        ∧ length ds
          = length ["archive_02_01_2021_10_30.zip"; "archive_1_1_2021_9_5.zip"]
        ∧ Forall (λ d, Arrow.valid d = true) ds.
Proof.
  apply sort_filenames_rebuilds.
  repeat constructor; eexists; vm_compute; reflexivity.
Defined.

Lemma substring_skip (p r : string) m :
  substring (String.length p) m (p +:+ r) = substring 0 m r.
Proof. induction p as [|c p IH]; [done|]. rewrite append_cons. simpl. apply IH. Qed.

Lemma slice_affixes (p x s : string) :
  String.length p = 8%nat → String.length s = 4%nat →
  Py.slice 8 4 (p +:+ x +:+ s) = x.
Proof.
  intros Hp Hs. unfold Py.slice. rewrite !length_append, Hp, Hs.
  replace (8 + (String.length x + 4) - 4 - 8)%nat with (String.length x) by lia.
  rewrite <- Hp, substring_skip. apply substring_prefix.
Qed.

(** X14: the sorter never looks at the first eight and the last four
    characters of a file name: whatever stands there, the result is the one
    for the names with [archive_] and [.zip] in these places. *)
Theorem sort_filenames_ignores_affixes (items : list (string * string * string)) :
  Forall (λ '(p, x, s), String.length p = 8%nat ∧ String.length s = 4%nat) items →
  _sort_filenames_by_date ((λ '(p, x, s), p +:+ x +:+ s) <$> items)
  = _sort_filenames_by_date ((λ '(p, x, s), "archive_" +:+ x +:+ ".zip") <$> items).
Proof.
  intros Hitems. rewrite !sort_filenames_unfold.
  assert (collect date_of ((λ '(p, x, s), p +:+ x +:+ s) <$> items)
          = collect date_of ((λ '(p, x, s), "archive_" +:+ x +:+ ".zip") <$> items))
    as ->; [|done].
  induction Hitems as [|[[p x] s] items [Hp Hs] _ IH]; [done|].
  cbn [fmap list_fmap collect]. rewrite IH. unfold date_of at 1 3.
  by rewrite (slice_affixes p x s Hp Hs), slice_archive.
Qed.

Lemma sort_filenames_ignores_affixes_witness :
  _sort_filenames_by_date
    ((λ '(p, x, s), p +:+ x +:+ s)
       <$> [("BACKUP--", "2_1_2021_10_30", ".tar"); ("snapshot", "1_1_2021_9_5", ".bz2")])
  = _sort_filenames_by_date
      ((λ '(p, x, s), "archive_" +:+ x +:+ ".zip")
         <$> [("BACKUP--", "2_1_2021_10_30", ".tar"); ("snapshot", "1_1_2021_9_5", ".bz2")]).
Proof.
  apply sort_filenames_ignores_affixes. repeat constructor.
Defined.

(** X15: when the years of the listing have four digits (1000 and later),
    sorting the output of the sorter again gives it back unchanged. *)
Theorem sort_filenames_idempotent names out :
  _sort_filenames_by_date names = Ok out →
  (∀ n a, n ∈ names → timestamp_of n = Some a → 1000 <= Arrow.year a) →
  _sort_filenames_by_date out = Ok out.
Proof.
  intros [Hacc ->]%sort_filenames_Ok_inv Hyears.
  set (ds := omap timestamp_of names).
  assert (Hts : Forall (λ d, timestamp_of (recovered_arch_name d) = Some d) (sorted ds)).
  { apply Forall_forall. intros d Hd.
    unfold sorted in Hd. rewrite merge_sort_Permutation in Hd.
    apply list_elem_of_omap in Hd as (n & Hn & Hd).
    apply timestamp_of_recovered; [by apply (timestamp_of_valid n)|by apply (Hyears n)]. }
  rewrite sort_filenames_unfold, date_objects_of_omap.
  - simpl. by rewrite (omap_timestamp_recovered _ Hts), sorted_idempotent.
  - apply Forall_fmap. eapply Forall_impl; [exact Hts|]. intros d Hd. simpl.
    by rewrite Hd.
Qed.

Lemma sort_filenames_idempotent_witness :
  _sort_filenames_by_date ["archive_1_1_2021_9_5.zip"; "archive_2_1_2021_10_30.zip"]
  = Ok ["archive_1_1_2021_9_5.zip"; "archive_2_1_2021_10_30.zip"].
Proof.
  apply (sort_filenames_idempotent
           ["archive_02_01_2021_10_30.zip"; "archive_1_1_2021_9_5.zip"]).
  - vm_compute. reflexivity.
  - intros n a Hin Hn.
    apply elem_of_cons in Hin as [->|Hin];
      [|apply list_elem_of_singleton in Hin as ->];
      vm_compute in Hn; injection Hn as <-; simpl; lia.
Defined.

Lemma short_years_checked : all_from short_year_ok 1 999 = true.
Proof. vm_compute. reflexivity. Qed.

Lemma short_year_field n :
  1 <= n < 1000 →
  all_digits (Py.str n) = true ∧ (String.length (Py.str n) < 4)%nat.
Proof.
  intros Hn.
  assert (H : short_year_ok n = true).
  { apply (all_from_spec _ _ _ n short_years_checked). lia. }
  unfold short_year_ok in H. apply andb_true_iff in H as [H1 H2].
  by apply Nat.ltb_lt in H2.
Qed.

Lemma get_stamp_short_year a :
  Arrow.valid a = true → Arrow.year a < 1000 →
  Arrow.get (stamp a) = Raise (ParserError (stamp a)).
Proof.
  intros Hv Hy. destruct (valid_ranges a Hv) as (Hy' & Hm & Hd & HH & HM).
  destruct (short_field _ Hm) as (Dm & Lm & Pm), (short_field _ Hd) as (Dd & Ld & Pd),
    (short_field (Arrow.hour a)) as (DH & LH & PH); [lia|].
  destruct (short_field _ HM) as (DM & LM & PM),
    (short_year_field (Arrow.year a)) as (Dy & Ly); [lia|].
  unfold Arrow.get. rewrite search_word; [done| |].
  - unfold Arrow.pattern, stamp.
    rewrite (digits_sep 1 2 (Py.str (Arrow.day a))) by done.
    rewrite (digits_sep 1 2 (Py.str (Arrow.month a))) by done.
    by rewrite (digits_short 4 4 (Py.str (Arrow.year a))) by (done || lia).
  - unfold stamp. repeat (apply word_chars_sep; [done|]).
    by apply word_chars_digits.
Qed.

(** X16: the sorter does not always accept its own output: a name whose year
    is before 1000 (written with leading zeros) is accepted, and the name
    rebuilt for it, which has the year without the zeros, is refused. *)
Theorem sort_filenames_short_year name a :
  timestamp_of name = Some a → Arrow.year a < 1000 →
  _sort_filenames_by_date [name] = Ok [recovered_arch_name a]
  ∧ ∃ e, is_date_error e
         ∧ _sort_filenames_by_date [recovered_arch_name a] = Raise e.
Proof.
  intros Hn Hy. split.
  - rewrite sort_filenames_unfold. simpl. apply timestamp_of_date_of in Hn.
    by rewrite Hn.
  - exists (ParserError (stamp a)). split; [done|].
    rewrite sort_filenames_unfold. simpl. unfold date_of.
    rewrite recovered_arch_name_stamp, slice_archive, get_stamp_short_year; [done| |done].
    by apply (timestamp_of_valid name).
Qed.

Lemma sort_filenames_short_year_witness :
  _sort_filenames_by_date ["archive_1_1_0987_0_0.zip"]
  = Ok [recovered_arch_name (Arrow.mk 987 1 1 0 0)]
  ∧ ∃ e, is_date_error e
         ∧ _sort_filenames_by_date [recovered_arch_name (Arrow.mk 987 1 1 0 0)]
           = Raise e.
Proof.
  apply (sort_filenames_short_year "archive_1_1_0987_0_0.zip").
  - vm_compute. reflexivity.
  - simpl. lia.
Defined.

(** ** The reader, continued *)

Lemma dict_set_keys {V} k (v : V) d :
  (dict_set k v d).*1 = if decide (k ∈ d.*1) then d.*1 else d.*1 ++ [k].
Proof.
  induction d as [|[k' v'] d IH].
  - destruct (decide (k ∈ ([] : list (string * V)).*1)) as [H|H]; [|done].
    by apply elem_of_nil in H.
  - cbn [dict_set]. destruct (String.eqb_spec k' k) as [->|Hne].
    + destruct (decide (k ∈ ((k, v') :: d).*1)) as [H|H]; [done|].
      destruct H. by left.
    + destruct (decide (k ∈ ((k', v') :: d).*1)) as [H|H].
      * cbn [fmap list_fmap fst] in *. rewrite IH.
        apply elem_of_cons in H as [->|Hin]; [done|]. by rewrite decide_True.
      * cbn [fmap list_fmap fst] in *. rewrite IH.
        rewrite decide_False; [done|]. intros Hin. apply H. by right.
Qed.

Lemma elem_of_dict_set {V} k (v : V) d k' v' :
  (k', v') ∈ dict_set k v d → (k' = k ∧ v' = v) ∨ (k', v') ∈ d.
Proof.
  induction d as [|[k0 v0] d IH]; simpl.
  - intros [= -> ->]%list_elem_of_singleton. by left.
  - destruct (String.eqb_spec k0 k) as [->|Hne].
    + intros [[= -> ->]|Hin]%elem_of_cons; [by left|]. right. by right.
    + intros [[= -> ->]|Hin]%elem_of_cons; [right; by left|].
      destruct (IH Hin) as [?|?]; [by left|]. right. by right.
Qed.

Lemma zf_read_last zf k v :
  zf_read zf k = Ok v
  ↔ ∃ before after, zf = before ++ (k, v) :: after ∧ k ∉ after.*1.
Proof.
  unfold zf_read. induction zf as [|[k' v'] zf IH] using rev_ind.
  - simpl. split; [done|]. intros (before & after & H & _).
    by destruct before.
  - rewrite rev_unit. cbn [List.find fst].
    destruct (String.eqb_spec k' k) as [->|Hne].
    + split.
      * intros [= ->]. exists zf, []. split; [done|]. apply not_elem_of_nil.
      * intros (before & after & H & Hnotin).
        destruct after as [|x after _] using rev_ind.
        -- apply app_inj_tail in H as [_ [= ->]]. done.
        -- rewrite app_comm_cons, app_assoc in H.
           apply app_inj_tail in H as [_ <-].
           destruct Hnotin. rewrite fmap_app. apply elem_of_app. right. by left.
    + rewrite IH. split.
      * intros (before & after & -> & Hnotin).
        exists before, (after ++ [(k', v')]). split; [by rewrite <- app_assoc|].
        rewrite fmap_app. intros [?|Hin%list_elem_of_singleton]%elem_of_app; [done|].
        simpl in Hin. congruence.
      * intros (before & after & H & Hnotin).
        destruct after as [|x after _] using rev_ind.
        -- apply app_inj_tail in H as [_ [= -> ->]]. done.
        -- rewrite app_comm_cons, app_assoc in H.
           apply app_inj_tail in H as [-> <-].
           exists before, after. split; [done|].
           intros Hin. apply Hnotin. rewrite fmap_app. apply elem_of_app. by left.
Qed.

Lemma read_loop zf names acc :
  (∀ n, n ∈ names → n ∈ zf.*1) →
  NoDup acc.*1 →
  (∀ k v, (k, v) ∈ acc → zf_read zf k = Ok v) →
  ∃ raw,
    for_each (λ html_dict f_name,
                let* data := zf_read zf f_name in
                Ok (dict_set f_name data html_dict)) names acc = Ok raw
    ∧ NoDup raw.*1
    ∧ (∀ k v, (k, v) ∈ raw → zf_read zf k = Ok v)
    ∧ (∀ k, k ∈ raw.*1 ↔ k ∈ acc.*1 ∨ k ∈ names).
Proof.
  revert acc. induction names as [|n names IH]; intros acc Hnames Hnd Hacc.
  - exists acc. simpl. split_and!; [done..|].
    intros k. split; [by left|]. intros [?|Hin]; [done|]. by apply elem_of_nil in Hin.
  - destruct (zf_read_Ok zf n) as [data Hdata]; [apply Hnames; by left|].
    simpl. rewrite Hdata. simpl.
    destruct (IH (dict_set n data acc)) as (raw & Hraw & Hnd' & Hvals & Hkeys).
    + intros n' Hn'. apply Hnames. by right.
    + rewrite dict_set_keys. case_decide; [done|].
      apply NoDup_app. split_and!; [done| |apply NoDup_singleton].
      intros k Hk ->%list_elem_of_singleton. done.
    + intros k v [[-> ->]|Hin]%elem_of_dict_set; [done|by apply Hacc].
    + exists raw. split_and!; [done..|].
      intros k. rewrite Hkeys, dict_set_keys, elem_of_cons.
      case_decide as Hn; [|rewrite elem_of_app, list_elem_of_singleton]; naive_solver.
Qed.

Section ReadProperties.

Context (BeautifulSoup : bytes → bs4.PageElement).
Context (ZipFile : string → result (list (string * bytes))).

(** X1: for a container that can be opened, [read_html_from_archive]
    returns a dictionary with one entry for each member name of the
    container and no other; when members share a name the entry holds the
    bytes of the last of them.  An empty container gives the empty
    dictionary. *)
Theorem read_html_from_archive_dictionary path zf :
  ZipFile path = Ok zf →
  ∃ raw,
    read_html_from_archive ZipFile path = Ok raw
    ∧ NoDup raw.*1
    ∧ (∀ k, k ∈ raw.*1 ↔ k ∈ zf.*1)
    ∧ (∀ k v, (k, v) ∈ raw →
              ∃ before after, zf = before ++ (k, v) :: after ∧ k ∉ after.*1)
    ∧ (zf = [] → raw = []).
Proof.
  intros Hzf. unfold read_html_from_archive. rewrite Hzf. simpl.
  destruct (read_loop zf (map fst zf) []) as (raw & Hraw & Hnd & Hvals & Hkeys).
  - done.
  - constructor.
  - intros k v Hin. by apply elem_of_nil in Hin.
  - exists raw. split_and!; [done|done| | |].
    + intros k. rewrite Hkeys. split; [|by right].
      intros [Hin|?]; [|done]. by apply elem_of_nil in Hin.
    + intros k v Hin. by apply zf_read_last, Hvals.
    + intros ->. simpl in Hraw. by injection Hraw as <-.
Qed.

(** X2: for a container whose member names are distinct, [get_html_dict]
    is [parse_html] applied to the members in the listing order of the
    container. *)
Theorem get_html_dict_distinct_names path zf :
  ZipFile path = Ok zf → NoDup zf.*1 →
  read_html_from_archive ZipFile path = Ok zf
  ∧ get_html_dict BeautifulSoup ZipFile path = parse_html BeautifulSoup zf.
Proof.
  intros Hzf Hnd.
  assert (Hread : read_html_from_archive ZipFile path = Ok zf).
  { unfold read_html_from_archive. rewrite Hzf. simpl. by apply read_loop_distinct. }
  split; [done|]. unfold get_html_dict. by rewrite Hread.
Qed.

End ReadProperties.

Lemma read_html_from_archive_dictionary_witness :
  ∃ raw,
    read_html_from_archive
      (λ _, Ok [("ABC.html", Sample.html_10_20); ("XYZ.html", Sample.no_table);
                ("ABC.html", Sample.html_30_40)]) "any.zip" = Ok raw
    ∧ NoDup raw.*1
    ∧ (∀ k, k ∈ raw.*1
            ↔ k ∈ [("ABC.html", Sample.html_10_20); ("XYZ.html", Sample.no_table);
                   ("ABC.html", Sample.html_30_40)].*1)
    ∧ (∀ k v, (k, v) ∈ raw →
              ∃ before after,
                [("ABC.html", Sample.html_10_20); ("XYZ.html", Sample.no_table);
                 ("ABC.html", Sample.html_30_40)] = before ++ (k, v) :: after
                ∧ k ∉ after.*1)
    ∧ ([("ABC.html", Sample.html_10_20); ("XYZ.html", Sample.no_table);
        ("ABC.html", Sample.html_30_40)] = [] → raw = []).
Proof.
  apply (read_html_from_archive_dictionary
           (λ _, Ok [("ABC.html", Sample.html_10_20); ("XYZ.html", Sample.no_table);
                     ("ABC.html", Sample.html_30_40)]) "any.zip").
  reflexivity.
Defined.

Lemma get_html_dict_distinct_names_witness :
  read_html_from_archive Sample.ZipFile "data/archive_1_1_2021_9_5.zip"
  = Ok [("ABC_2021.html", Sample.html_30_40); ("ABCD2021.html", Sample.html_10_20);
        ("XYZ.html", Sample.no_table)]
  ∧ get_html_dict Sample.BeautifulSoup Sample.ZipFile "data/archive_1_1_2021_9_5.zip"
    = parse_html Sample.BeautifulSoup
        [("ABC_2021.html", Sample.html_30_40); ("ABCD2021.html", Sample.html_10_20);
         ("XYZ.html", Sample.no_table)].
Proof.
  apply get_html_dict_distinct_names.
  - vm_compute. reflexivity.
  - cbn [fmap list_fmap fst]. repeat constructor.
    + intros Hin. repeat (apply elem_of_cons in Hin as [Hin|Hin]; [discriminate|]).
      by apply elem_of_nil in Hin.
    + intros Hin. repeat (apply elem_of_cons in Hin as [Hin|Hin]; [discriminate|]).
      by apply elem_of_nil in Hin.
    + intros Hin. by apply elem_of_nil in Hin.
Defined.

(** ** The duplicate scan, continued *)

Lemma flagged_after_elem previous pairs path :
  path ∈ flagged_after previous pairs → path ∈ pairs.*1.
Proof. intros Hin. eapply elem_of_sublist; [exact Hin|]. apply flagged_after_sublist. Qed.

Lemma filter_ext_in {A} (P Q : A → Prop) `{∀ x, Decision (P x)} `{∀ x, Decision (Q x)}
    (l : list A) :
  (∀ x, x ∈ l → P x ↔ Q x) → filter P l = filter Q l.
Proof.
  induction l as [|x l IH]; intros Hext; [done|].
  rewrite !filter_cons. rewrite IH by (intros y Hy; apply Hext; by right).
  destruct (decide (P x)) as [HP|HP], (decide (Q x)) as [HQ|HQ]; try done.
  - destruct HQ. apply Hext; [by left|done].
  - destruct HP. apply Hext; [by left|done].
Qed.

Lemma kept_after_head previous pairs x l :
  kept_after previous pairs = x :: l → Some x.2 ≠ previous.
Proof.
  revert previous. induction pairs as [|[path d] rest IH]; intros previous; [done|].
  cbn [kept_after]. case_decide as Hd.
  - simpl. rewrite Hd. apply IH.
  - simpl. by intros [= <- _].
Qed.

Lemma kept_after_no_neighbours previous pairs :
  Sorted (λ a b, a.2 ≠ b.2) (kept_after previous pairs).
Proof.
  revert previous. induction pairs as [|[path d] rest IH]; intros previous; [constructor|].
  cbn [kept_after]. case_decide as Hd; simpl; [apply IH|].
  constructor; [apply IH|].
  destruct (kept_after (Some d) rest) as [|y l] eqn:Hk; constructor.
  simpl. intros Heq. apply (kept_after_head _ _ _ _ Hk). by rewrite Heq.
Qed.

Lemma kept_after_content previous pairs x :
  x ∈ pairs →
  (∃ y, y ∈ kept_after previous pairs ∧ y.2 = x.2) ∨ Some x.2 = previous.
Proof.
  revert previous. induction pairs as [|[path d] rest IH]; intros previous Hin.
  - by apply elem_of_nil in Hin.
  - cbn [kept_after]. apply elem_of_cons in Hin as [->|Hin].
    + case_decide as Hd; [by right|]. left. exists (path, d). split; [by left|done].
    + destruct (IH (Some d) Hin) as [(y & Hy & Heq)|Heq].
      * left. exists y. split; [|done]. apply elem_of_app. by right.
      * injection Heq as Heq. case_decide as Hd.
        -- right. by rewrite Heq.
        -- left. exists (path, d). split; [by left|done].
Qed.

Lemma filter_flagged_after previous pairs :
  NoDup pairs.*1 →
  filter (λ x, x.1 ∉ flagged_after previous pairs) pairs = kept_after previous pairs.
Proof.
  revert previous. induction pairs as [|[path d] rest IH]; intros previous Hnd; [done|].
  cbn [fmap list_fmap fst] in Hnd. apply NoDup_cons in Hnd as [Hpath Hnd].
  assert (Hnot : path ∉ flagged_after (Some d) rest).
  { intros Hin. by apply Hpath, (flagged_after_elem (Some d)). }
  cbn [flagged_after kept_after]. rewrite filter_cons.
  rewrite (filter_ext_in _ (λ x, x.1 ∉ flagged_after (Some d) rest) rest).
  - rewrite (IH (Some d) Hnd).
    destruct (decide (Some d = previous)) as [Hd|Hd]; simpl.
    + rewrite decide_False; [done|]. intros H. apply H. by left.
    + by rewrite decide_True.
  - intros x Hx. rewrite elem_of_app.
    assert (x.1 ≠ path).
    { intros <-. apply Hpath. apply list_elem_of_fmap. by exists x. }
    destruct (decide (Some d = previous));
      [rewrite list_elem_of_singleton|rewrite elem_of_nil]; naive_solver.
Qed.

(** X22: when the paths are distinct, taking the reported archives away
    leaves a sequence in which no two neighbours have equal SnapshotSets,
    which begins with the first archive and in which every SnapshotSet of
    the input still occurs. *)
Theorem duplicate_scan_removal pairs :
  NoDup pairs.*1 →
  Sorted (λ a b, a.2 ≠ b.2) (filter (λ x, x.1 ∉ duplicate_scan pairs) pairs)
  ∧ (∀ x, x ∈ pairs →
          ∃ y, y ∈ filter (λ x, x.1 ∉ duplicate_scan pairs) pairs ∧ y.2 = x.2)
  ∧ head (filter (λ x, x.1 ∉ duplicate_scan pairs) pairs) = head pairs.
Proof.
  intros Hnd. rewrite duplicate_scan_flagged_after, (filter_flagged_after None) by done.
  split_and!.
  - apply kept_after_no_neighbours.
  - intros x Hx. by destruct (kept_after_content None pairs x Hx).
  - destruct pairs as [|[path d] rest]; [done|]. cbn [kept_after].
    by rewrite decide_False.
Qed.

Lemma duplicate_scan_removal_witness :
  Sorted (λ a b : string * SnapshotSet, a.2 ≠ b.2)
    (filter (λ x, x.1 ∉ duplicate_scan Sample2.scan_pairs) Sample2.scan_pairs)
  ∧ (∀ x, x ∈ Sample2.scan_pairs →
          ∃ y, y ∈ filter (λ x, x.1 ∉ duplicate_scan Sample2.scan_pairs)
                     Sample2.scan_pairs
               ∧ y.2 = x.2)
  ∧ head (filter (λ x, x.1 ∉ duplicate_scan Sample2.scan_pairs) Sample2.scan_pairs)
    = head Sample2.scan_pairs.
Proof.
  apply duplicate_scan_removal.
  unfold Sample2.scan_pairs. cbn [fmap list_fmap fst]. repeat constructor.
  - intros Hin. repeat (apply elem_of_cons in Hin as [Hin|Hin]; [discriminate|]).
    by apply elem_of_nil in Hin.
  - intros Hin. repeat (apply elem_of_cons in Hin as [Hin|Hin]; [discriminate|]).
    by apply elem_of_nil in Hin.
  - intros Hin. repeat (apply elem_of_cons in Hin as [Hin|Hin]; [discriminate|]).
    by apply elem_of_nil in Hin.
  - intros Hin. by apply elem_of_nil in Hin.
Defined.

Lemma duplicate_scan_adjacent before path1 path2 (d : SnapshotSet) after :
  path2 ∈ duplicate_scan (before ++ (path1, d) :: (path2, d) :: after).
Proof.
  unfold duplicate_scan. rewrite fold_left_app.
  destruct (fold_left scan_step before ([], None)) as [acc previous].
  rewrite fold_scan_step. cbn [flagged_after].
  rewrite (decide_True (P := Some d = Some d)) by done.
  rewrite !elem_of_app. right. right. left. by left.
Qed.

Lemma StronglySorted_between (l1 m1 m2 : list Arrow.t) a :
  StronglySorted Arrow.le (l1 ++ a :: m1 ++ a :: m2) →
  ∃ l2, l1 ++ a :: m1 ++ a :: m2 = l1 ++ a :: a :: l2.
Proof.
  intros Hs. destruct m1 as [|x m1]; [by exists m2|].
  apply StronglySorted_app in Hs as (_ & _ & Hs).
  apply StronglySorted_cons in Hs as [Ha Hs].
  apply StronglySorted_cons in Hs as [Hx _].
  assert (x = a) as ->.
  { apply (anti_symm Arrow.le).
    - rewrite Forall_forall in Hx. apply Hx. apply elem_of_app. right. by left.
    - rewrite Forall_forall in Ha. apply Ha. by left. }
  by exists (m1 ++ a :: m2).
Qed.

Lemma StronglySorted_twice_adjacent (S : list Arrow.t) a rest :
  StronglySorted Arrow.le S → S ≡ₚ a :: a :: rest →
  ∃ l1 l2, S = l1 ++ a :: a :: l2.
Proof.
  intros Hs Hp.
  assert (Hin : a ∈ S) by (rewrite Hp; by left).
  apply list_elem_of_split in Hin as (l1 & l2 & ->).
  rewrite <- Permutation_middle in Hp. apply Permutation_cons_inv in Hp.
  assert (Hin : a ∈ l1 ++ l2) by (rewrite Hp; by left).
  apply elem_of_app in Hin as [Hin|Hin].
  - apply list_elem_of_split in Hin as (m1 & m2 & ->).
    rewrite <- app_assoc in Hs |- *. cbn [app] in Hs |- *.
    destruct (StronglySorted_between m1 m2 l2 a Hs) as [l2' ->]. by exists m1, l2'.
  - apply list_elem_of_split in Hin as (m1 & m2 & ->).
    destruct (StronglySorted_between l1 m1 m2 a Hs) as [l2' ->]. by exists l1, l2'.
Qed.

Lemma Forall2_elem_of_l {A B} (P : A → B → Prop) l k x :
  Forall2 P l k → x ∈ l → ∃ y, y ∈ k ∧ P x y.
Proof.
  induction 1 as [|a b l k Hab _ IH]; intros Hin; [by apply elem_of_nil in Hin|].
  apply elem_of_cons in Hin as [->|Hin].
  - exists b. split; [by left|done].
  - destruct (IH Hin) as (y & Hy & HP). exists y. split; [by right|done].
Qed.

(** ** [main], continued *)

Section MainProperties.

Context (BeautifulSoup : bytes → bs4.PageElement).
Context (ZipFile : string → result (list (string * bytes))).
Context (os_listdir : string → result (list string)).
Context (os_path_join : string → string → string).

Local Abbreviation get_html_dict' := (get_html_dict BeautifulSoup ZipFile).
Local Abbreviation generate_sorted_paths_to_archives' :=
  (generate_sorted_paths_to_archives os_listdir os_path_join).
Local Abbreviation main' := (main BeautifulSoup ZipFile os_listdir os_path_join).

Lemma generate_unfold dir :
  generate_sorted_paths_to_archives' dir
  = let* arch_filenames := os_listdir dir in
    let* sorted_names := _sort_filenames_by_date arch_filenames in
    Ok (os_path_join dir <$> sorted_names).
Proof.
  unfold generate_sorted_paths_to_archives.
  destruct (os_listdir dir) as [names|]; simpl; [|done].
  destruct (_sort_filenames_by_date names) as [out|]; simpl; [|done].
  by rewrite (fold_left_snoc (os_path_join dir)).
Qed.

Lemma generate_Ok dir names :
  os_listdir dir = Ok names →
  Forall (λ n, is_Some (timestamp_of n)) names →
  generate_sorted_paths_to_archives' dir
  = Ok (os_path_join dir <$> (recovered_arch_name <$> sorted (omap timestamp_of names))).
Proof.
  intros Hdir Hacc. rewrite generate_unfold, Hdir. simpl.
  by rewrite sort_filenames_unfold, (date_objects_of_omap names Hacc).
Qed.

Lemma generate_Ok_inv dir paths :
  generate_sorted_paths_to_archives' dir = Ok paths →
  ∃ names, os_listdir dir = Ok names
           ∧ Forall (λ n, is_Some (timestamp_of n)) names
           ∧ paths = os_path_join dir
                       <$> (recovered_arch_name <$> sorted (omap timestamp_of names)).
Proof.
  rewrite generate_unfold. destruct (os_listdir dir) as [names|]; simpl; [|done].
  destruct (_sort_filenames_by_date names) as [out|] eqn:Hsort; simpl; [|done].
  intros [= <-]. apply sort_filenames_Ok_inv in Hsort as [Hacc ->]. by exists names.
Qed.

Lemma get_html_dict_Ok_inv path d :
  get_html_dict' path = Ok d → ∃ zf, ZipFile path = Ok zf.
Proof.
  unfold get_html_dict, read_html_from_archive.
  destruct (ZipFile path) as [zf|e]; [by exists zf|done].
Qed.

(** X17: the paths handed to the reader are the directory joined with the
    names rebuilt by the sorter, in ascending order of the timestamps; the
    error of listing the directory ends [main]; an empty directory gives
    the empty report. *)
Theorem generate_sorted_paths_rebuilt dir :
  (∀ e, os_listdir dir = Raise e →
        generate_sorted_paths_to_archives' dir = Raise e ∧ main' dir = Raise e)
  ∧ (∀ names,
        os_listdir dir = Ok names →
        Forall (λ n, is_Some (timestamp_of n)) names →
        ∃ ds, generate_sorted_paths_to_archives' dir
              = Ok ((λ d, os_path_join dir (recovered_arch_name d)) <$> ds)
              ∧ ds ≡ₚ omap timestamp_of names
              ∧ StronglySorted Arrow.le ds)
  ∧ (os_listdir dir = Ok [] →
     generate_sorted_paths_to_archives' dir = Ok [] ∧ main' dir = Ok []).
Proof.
  split_and!.
  - intros e He.
    assert (Hgen : generate_sorted_paths_to_archives' dir = Raise e).
    { by rewrite generate_unfold, He. }
    split; [done|]. by rewrite (main_unfold BeautifulSoup ZipFile), Hgen.
  - intros names Hdir Hacc. exists (sorted (omap timestamp_of names)).
    rewrite (generate_Ok dir names Hdir Hacc). split_and!.
    + by rewrite <- list_fmap_compose.
    + unfold sorted. apply merge_sort_Permutation.
    + apply StronglySorted_merge_sort; apply _.
  - intros Hdir.
    assert (Hgen : generate_sorted_paths_to_archives' dir = Ok []).
    { by rewrite generate_unfold, Hdir. }
    split; [done|]. by rewrite (main_unfold BeautifulSoup ZipFile), Hgen.
Qed.

(** X18: [main] produces a report exactly when the directory can be listed,
    every listed name is accepted by the sorter, and for every timestamp of
    the listing the archive under the rebuilt name can be read. *)
Theorem main_succeeds_iff dir :
  (∃ report, main' dir = Ok report)
  ↔ ∃ names,
      os_listdir dir = Ok names
      ∧ Forall (λ n, is_Some (timestamp_of n)) names
      ∧ ∀ a, a ∈ omap timestamp_of names →
             ∃ zf, ZipFile (os_path_join dir (recovered_arch_name a)) = Ok zf.
Proof.
  rewrite (main_unfold BeautifulSoup ZipFile). split.
  - intros [report Hmain].
    destruct (generate_sorted_paths_to_archives' dir) as [paths|] eqn:Hgen;
      simpl in Hmain; [|done].
    destruct (collect get_html_dict' paths) as [dicts|] eqn:Hc; simpl in Hmain; [|done].
    apply generate_Ok_inv in Hgen as (names & Hdir & Hacc & ->).
    exists names. split_and!; [done..|]. intros a Ha.
    apply collect_Ok_inv in Hc.
    destruct (Forall2_elem_of_l _ _ _ (os_path_join dir (recovered_arch_name a)) Hc)
      as (d & _ & Hd).
    + apply list_elem_of_fmap. exists (recovered_arch_name a). split; [done|].
      apply list_elem_of_fmap. exists a. split; [done|].
      unfold sorted. by rewrite merge_sort_Permutation.
    + by apply (get_html_dict_Ok_inv _ d).
  - intros (names & Hdir & Hacc & Hread).
    rewrite (generate_Ok dir names Hdir Hacc). simpl.
    destruct (collect_Ok get_html_dict'
                (os_path_join dir
                   <$> (recovered_arch_name <$> sorted (omap timestamp_of names))))
      as [dicts Hdicts].
    + apply Forall_forall. intros path (name & -> & (a & -> & Ha)%list_elem_of_fmap)%list_elem_of_fmap.
      unfold sorted in Ha. rewrite merge_sort_Permutation in Ha.
      destruct (Hread a Ha) as [zf Hzf].
      by apply (get_html_dict_total BeautifulSoup ZipFile _ zf).
    + rewrite Hdicts. simpl. eauto.
Qed.

(** X19: in a run that ends with a report, the dictionary compared at each
    position is the one of the path at that position; the report is made
    of sorted paths other than the first, in their order, so it is shorter
    than the list of paths. *)
Theorem main_report dir report :
  main' dir = Ok report →
  ∃ paths dicts,
    generate_sorted_paths_to_archives' dir = Ok paths
    ∧ Forall2 (λ path d, get_html_dict' path = Ok d) paths dicts
    ∧ report = consecutive_duplicates (zip paths dicts)
    ∧ report `sublist_of` tail paths
    ∧ (paths = [] ∨ length report < length paths)%nat.
Proof.
  rewrite (main_unfold BeautifulSoup ZipFile).
  destruct (generate_sorted_paths_to_archives' dir) as [paths|] eqn:Hgen; simpl; [|done].
  destruct (collect get_html_dict' paths) as [dicts|] eqn:Hc; simpl; [|done].
  intros [= <-]. apply collect_Ok_inv in Hc. exists paths, dicts.
  assert (Hsub : duplicate_scan (zip paths dicts) `sublist_of` tail paths).
  { rewrite duplicate_scan_flagged_after.
    destruct Hc as [|path d paths dicts _ Hc]; [done|].
    cbn [zip_with flagged_after tail]. rewrite decide_False by done. simpl.
    etrans; [apply flagged_after_sublist|].
    rewrite fst_zip; [done|]. by rewrite (Forall2_length _ _ _ Hc). }
  split_and!; [done|done|apply duplicate_scan_positions|done|].
  destruct paths as [|path paths]; [by left|]. right.
  apply sublist_length in Hsub. simpl in *. lia.
Qed.

(** X20: when two names of the listing have the same timestamp, the path
    rebuilt for that timestamp is in every report [main] produces: the
    archive is read twice and the second reading is reported as a duplicate
    of the first. *)
Theorem main_reports_same_timestamp dir l1 n1 l2 n2 l3 a report :
  os_listdir dir = Ok (l1 ++ n1 :: l2 ++ n2 :: l3) →
  timestamp_of n1 = Some a → timestamp_of n2 = Some a →
  main' dir = Ok report →
  os_path_join dir (recovered_arch_name a) ∈ report.
Proof.
  intros Hdir H1 H2. rewrite (main_unfold BeautifulSoup ZipFile).
  destruct (generate_sorted_paths_to_archives' dir) as [paths|] eqn:Hgen; simpl; [|done].
  destruct (collect get_html_dict' paths) as [dicts|] eqn:Hc; simpl; [|done].
  intros [= <-]. apply collect_Ok_inv in Hc.
  apply generate_Ok_inv in Hgen as (names & Hdir' & Hacc & ->).
  rewrite Hdir in Hdir'. injection Hdir' as <-.
  destruct (StronglySorted_twice_adjacent
              (sorted (omap timestamp_of (l1 ++ n1 :: l2 ++ n2 :: l3))) a
              (omap timestamp_of l1 ++ omap timestamp_of l2 ++ omap timestamp_of l3))
    as (s1 & s2 & Hs).
  - apply StronglySorted_merge_sort; apply _.
  - unfold sorted. rewrite merge_sort_Permutation.
    rewrite omap_app.
    change (omap ?f (?x :: ?l))
      with (match f x with Some y => y :: omap f l | None => omap f l end).
    rewrite H1, omap_app.
    change (omap ?f (?x :: ?l))
      with (match f x with Some y => y :: omap f l | None => omap f l end).
    rewrite H2. rewrite <- !Permutation_middle. done.
  - rewrite Hs, !fmap_app, !fmap_cons in Hc |- *.
    apply Forall2_app_inv_l in Hc as (D1 & D' & Hc1 & Hc2 & ->).
    apply Forall2_cons_inv_l in Hc2 as (d1 & D'' & Hd1 & Hc2 & ->).
    apply Forall2_cons_inv_l in Hc2 as (d2 & D2 & Hd2 & Hc2 & ->).
    rewrite Hd1 in Hd2. injection Hd2 as <-.
    rewrite zip_with_app by (by apply Forall2_length in Hc1).
    cbn [zip_with]. apply duplicate_scan_adjacent.
Qed.

End MainProperties.

(** X21: the result of [main] does not depend on the order in which the
    directory is listed, when every listed name is accepted. *)
Theorem main_listing_order BeautifulSoup ZipFile os_path_join
    (os_listdir1 os_listdir2 : string → result (list string)) dir names1 names2 :
  os_listdir1 dir = Ok names1 → os_listdir2 dir = Ok names2 →
  names1 ≡ₚ names2 →
  Forall (λ n, is_Some (timestamp_of n)) names1 →
  main BeautifulSoup ZipFile os_listdir1 os_path_join dir
  = main BeautifulSoup ZipFile os_listdir2 os_path_join dir.
Proof.
  intros H1 H2 Hp Hacc1.
  assert (Hacc2 : Forall (λ n, is_Some (timestamp_of n)) names2) by by rewrite <- Hp.
  rewrite !main_unfold, (generate_Ok _ _ dir names1 H1 Hacc1),
    (generate_Ok _ _ dir names2 H2 Hacc2).
  by rewrite (sorted_permutation (omap timestamp_of names1) (omap timestamp_of names2))
    by by rewrite Hp.
Qed.

Lemma main_report_witness :
  ∃ paths dicts,
    generate_sorted_paths_to_archives Sample.os_listdir Sample.os_path_join "void"
    = Ok paths
    ∧ Forall2 (λ path d,
                 get_html_dict Sample.BeautifulSoup Sample.ZipFile path = Ok d)
        paths dicts
    ∧ ["void/archive_2_1_2021_10_30.zip"] = consecutive_duplicates (zip paths dicts)
    ∧ ["void/archive_2_1_2021_10_30.zip"] `sublist_of` tail paths
    ∧ (paths = [] ∨ length ["void/archive_2_1_2021_10_30.zip"] < length paths)%nat.
Proof.
  apply (main_report Sample.BeautifulSoup Sample.ZipFile Sample.os_listdir
           Sample.os_path_join "void").
  vm_compute. reflexivity.
Defined.

Lemma main_reports_same_timestamp_witness :
  Sample.os_path_join "twice" (recovered_arch_name (Arrow.mk 2021 1 1 9 5))
  ∈ ["twice/archive_1_1_2021_9_5.zip"].
Proof.
  apply (main_reports_same_timestamp Sample.BeautifulSoup Sample2.ZipFile
           Sample2.os_listdir Sample.os_path_join "twice"
           [] "archive_01_1_2021_9_5.zip" [] "archive_1_1_2021_9_5.zip" []).
  - reflexivity.
  - vm_compute. reflexivity.
  - vm_compute. reflexivity.
  - vm_compute. reflexivity.
Defined.

Lemma main_listing_order_witness :
  main Sample.BeautifulSoup Sample.ZipFile Sample.os_listdir Sample.os_path_join
    "void"
  = main Sample.BeautifulSoup Sample.ZipFile
      (λ _, Ok ["archive_1_1_2021_9_5.zip"; "archive_2_1_2021_10_30.zip"])
      Sample.os_path_join "void".
Proof.
  apply (main_listing_order Sample.BeautifulSoup Sample.ZipFile Sample.os_path_join
           Sample.os_listdir
           (λ _, Ok ["archive_1_1_2021_9_5.zip"; "archive_2_1_2021_10_30.zip"])
           "void"
           ["archive_2_1_2021_10_30.zip"; "archive_1_1_2021_9_5.zip"]
           ["archive_1_1_2021_9_5.zip"; "archive_2_1_2021_10_30.zip"]).
  - reflexivity.
  - reflexivity.
  - apply perm_swap.
  - repeat constructor; eexists; vm_compute; reflexivity.
Defined.
